(** * nexus-frontend: access guard, booking-details helper and dashboard aggregation

    A shallow embedding of three pieces of the hotel dashboard front end:

    - [Middleware]: the route guard ([middleware], with its two path lists);
    - [BookingDetails]: the [calculateNights] helper of the booking panel;
    - [Dashboard]: [processGraphQLData], the client-side aggregation that
      turns bookings, rooms and a date range into the dashboard metrics.

    Conventions of the embedding.

    - A JavaScript [Date] is its time value in milliseconds since the epoch,
      [None] standing for [Invalid Date] (time value NaN).  Calendar
      arithmetic ([setDate], date-fns [subDays], [format]) is taken in UTC,
      where one calendar day is exactly [msPerDay] milliseconds.
    - JavaScript numbers are IEEE doubles.  Counts are modelled in [Z] and
      amounts and quotients as exact rationals in [Q]; [Math.round],
      [Math.ceil] and [Math.floor] are the exact rounding functions.  NaN is
      written out where the source can produce it.
    - [Array.prototype.reduce] is [fold_left]; [Array.prototype.sort] is a
      stable sort; a plain object used as a dictionary is an association list
      in insertion order, enumerated by [Object_keys] in the order of
      ECMAScript's OrdinaryOwnPropertyKeys.
    - A thrown exception is the result [None]. *)

From Stdlib Require Import ZArith QArith Qround Qabs List String Ascii Bool Lia.
From Stdlib Require Import Permutation Sorted DecimalString.
Import ListNotations.

Local Open Scope string_scope.
Local Open Scope Z_scope.

(* ================================================================== *)
(** * Host functions *)
(* ================================================================== *)

(** Time value of a [Date]; [None] is [Invalid Date]. *)
Definition JsDate : Type := option Z.

Definition msPerDay : Z := 1000 * 60 * 60 * 24.

(** Largest magnitude of a valid time value (ECMAScript TimeClip). *)
Definition maxTime : Z := 8640000000000000.

Definition TimeClip (t : Z) : JsDate :=
  if Z.abs t <=? maxTime then Some t else None.

(** [a <= b] and [a >= b] on dates: the comparison of the two time values,
    false as soon as one of them is NaN. *)
Definition date_le (a b : JsDate) : bool :=
  match a, b with
  | Some x, Some y => x <=? y
  | _, _ => false
  end.

Definition date_ge (a b : JsDate) : bool :=
  match a, b with
  | Some x, Some y => y <=? x
  | _, _ => false
  end.

(** [d.setDate(d.getDate() + n)], in UTC. *)
Definition setDate_plus (d : JsDate) (n : Z) : JsDate :=
  match d with
  | Some t => TimeClip (t + n * msPerDay)
  | None => None
  end.

(** date-fns [subDays(date, amount)]: [addDays(date, -amount)], which
    returns the date unchanged for a zero amount and otherwise calls
    [setDate(getDate() + amount)]. *)
Definition addDays (d : JsDate) (amount : Z) : JsDate :=
  if amount =? 0 then d else setDate_plus d amount.

Definition subDays (d : JsDate) (amount : Z) : JsDate :=
  addDays d (- amount).

Definition Math_round (x : Q) : Z := Qfloor (x + (1 # 2)).
Definition Math_ceil (x : Q) : Z := Qceiling x.
Definition Math_floor (x : Q) : Z := Qfloor x.

(** What the repository takes from the engine and from date-fns and what
    the embedding leaves abstract. *)
Record Host : Type := {
  (** [new Date(s).getTime()] for a date string [s] *)
  parseDate : string -> JsDate;
  (** [String.prototype.trim] *)
  trim : string -> string;
  (** [new Date(format(new Date(t), 'MMM dd')).getTime()]: the instant the
      engine reads back from the label, which has no year, of the instant
      [t]; an engine that reads no date from such a label makes the
      comparator NaN, which [sort] takes for 0, as a constant function does *)
  labelTime : Z -> Z;
  (** the successive results of [Math.random()] *)
  Math_random : nat -> Q
}.

(* ================================================================== *)
(** * Containers *)
(* ================================================================== *)

(** Stable insertion sort: [leb a b] says that [a] may stay before [b],
    that is, the comparator of the source is not positive on [(a, b)]. *)
Fixpoint insert_sorted {A} (leb : A -> A -> bool) (x : A) (l : list A) : list A :=
  match l with
  | [] => [x]
  | y :: r => if leb x y then x :: y :: r else y :: insert_sorted leb x r
  end.

Fixpoint Array_sort {A} (leb : A -> A -> bool) (l : list A) : list A :=
  match l with
  | [] => []
  | x :: r => insert_sorted leb x (Array_sort leb r)
  end.

(** [arr.slice(0, n)] *)
Definition slice0 {A} (n : nat) (l : list A) : list A := firstn n l.

(** Association list in insertion order, the model of a dictionary object. *)
Fixpoint assoc_get {K V} (eqb : K -> K -> bool) (k : K) (o : list (K * V)) : option V :=
  match o with
  | [] => None
  | (k', v) :: r => if eqb k' k then Some v else assoc_get eqb k r
  end.

Fixpoint assoc_set {K V} (eqb : K -> K -> bool) (k : K) (v : V) (o : list (K * V)) : list (K * V) :=
  match o with
  | [] => [(k, v)]
  | (k', v') :: r =>
      if eqb k' k then (k', v) :: r else (k', v') :: assoc_set eqb k v r
  end.

Definition is_digit (c : ascii) : bool :=
  let n := N_of_ascii c in (48 <=? n)%N && (n <=? 57)%N.

Fixpoint digits_value (s : string) (acc : N) : option N :=
  match s with
  | EmptyString => Some acc
  | String c r =>
      if is_digit c
      then digits_value r (10 * acc + (N_of_ascii c - 48))%N
      else None
  end.

(** A property key that is an array index: the canonical decimal string of
    an integer below [2^32 - 1]. *)
Definition array_index (s : string) : option N :=
  match s with
  | EmptyString => None
  | String "0" EmptyString => Some 0%N
  | String "0" _ => None
  | _ =>
      match digits_value s 0 with
      | Some n => if (n <? 4294967295)%N then Some n else None
      | None => None
      end
  end.

Definition is_index_key (s : string) : bool :=
  match array_index s with Some _ => true | None => false end.

Definition index_of_key (s : string) : N :=
  match array_index s with Some n => n | None => 0%N end.

(** [Object.keys(o)]: the array-index keys in ascending numeric order, then
    the other keys in insertion order. *)
Definition Object_keys {V} (o : list (string * V)) : list string :=
  let ks := map fst o in
  Array_sort (fun a b => (index_of_key a <=? index_of_key b)%N) (filter is_index_key ks)
  ++ filter (fun k => negb (is_index_key k)) ks.

(* ================================================================== *)
(** * The access guard (middleware) *)
(* ================================================================== *)

Module Middleware.

Definition protectedPaths : list string :=
  [ "/"; "/dashboard"; "/profile"; "/settings"; "/admin"; "/hotel-setup";
    "/hotels/settings" ].

Definition authRoutes : list string :=
  [ "/login"; "/signup"; "/forgot-password" ].

(** [NextResponse.redirect(url)] with the path and the search parameters of
    [url], or [NextResponse.next()]. *)
Inductive NextResponse : Type :=
| redirect (path : string) (searchParams : list (string * string))
| next.

(** [s.startsWith(p)] *)
Definition startsWith (s p : string) : bool := String.prefix p s.

(** [pathname === p || pathname.startsWith(`${p}/`)] *)
Definition matchesPath (pathname p : string) : bool :=
  (pathname =? p)%string || startsWith pathname (p ++ "/").

(** [token] is the decoded session token, [None] when [getToken] yields
    [null]. *)
Definition middleware {JWT : Type} (pathname : string) (token : option JWT) : NextResponse :=
  let hasToken := match token with Some _ => true | None => false end in
  if existsb (matchesPath pathname) protectedPaths && negb hasToken then
    redirect "/login" [("callbackUrl", pathname)]
  else if existsb (matchesPath pathname) authRoutes && hasToken then
    redirect "/dashboard" []
  else next.

(** The membership test in the words of the design: some entry of the list
    is the path itself, or the path continues an entry after a slash. *)
Definition listed (l : list string) (pathname : string) : Prop :=
  exists p, In p l /\ (pathname = p \/ exists rest, pathname = p ++ "/" ++ rest).

End Middleware.

(* ================================================================== *)
(** * The booking-details panel *)
(* ================================================================== *)

Module BookingDetails.

(** [calculateNights].  The difference of two time values is NaN when one
    date string does not parse; [Math.ceil] keeps NaN and [NaN || 1] is 1. *)
Definition calculateNights (h : Host) (checkInDate checkOutDate : string) : Z :=
  if (checkInDate =? "")%string || (checkOutDate =? "")%string then 1
  else
    let checkIn := parseDate h checkInDate in
    let checkOut := parseDate h checkOutDate in
    match checkOut, checkIn with
    | Some o, Some i =>
        let diffTime := Z.abs (o - i) in
        let diffDays := Math_ceil (inject_Z diffTime / inject_Z msPerDay) in
        if diffDays =? 0 then 1 else diffDays
    | _, _ => 1
    end.

End BookingDetails.

(* ================================================================== *)
(** * The dashboard aggregation *)
(* ================================================================== *)

Module Dashboard.

(** ** Data model *)

Module Guest.
Record t : Type := { firstName : string; lastName : string; email : string }.
End Guest.

(** [checkInDate] and [checkOutDate] hold the dates that
    [new Date(booking.checkInDate)] and [new Date(booking.checkOutDate)]
    construct from the two date strings.  [totalAmount], [numberOfGuests]
    and [bookingSource] are [None] when the field is absent or, for the
    numbers, when [Number(...)] is NaN. *)
Module Booking.
Record t : Type := {
  id : string;
  roomId : string;
  guest : Guest.t;
  bookingSource : option string;
  checkInDate : JsDate;
  checkOutDate : JsDate;
  roomType : string;
  bookingStatus : string;
  totalAmount : option Q;
  numberOfGuests : option Z
}.
End Booking.

Module Room.
Record t : Type := {
  id : string;
  roomType : string;
  status : string;
  isActive : bool;
  floor : option Z
}.
End Room.

Module Hotel.
Record t : Type := { id : string; floorCount : Z; roomCount : Z }.
End Hotel.

(** [from] and [to] are [None] when the field is undefined. *)
Record DateRange : Type := { from : option Z; to : option Z }.

Record ChartDataItem (V : Type) : Type := { name : string; value : V }.
Arguments name {V} _.
Arguments value {V} _.

(** [date] is the instant whose ['MMM dd'] rendering is the label. *)
Record TrendDataItem : Type := {
  date : Z;
  bookings : option Z;
  revenue : option Q;
  occupancy : option Z
}.

Module GuestItem.
Record t : Type := { name : string; email : string; bookings : Z; totalSpent : Q }.
End GuestItem.

Module OverviewMetrics.
Record t : Type := {
  totalBookings : Z;
  totalBookingsChange : Z;
  occupancyRate : Z;
  occupancyRateChange : Z;
  totalRevenue : Q;
  totalRevenueChange : Z;
  averageDailyRate : Z;
  averageDailyRateChange : Z;
  revPAR : Z;
  totalGuests : Z;
  totalRooms : Z
}.
End OverviewMetrics.

Module DashboardData.
Record t : Type := {
  overview : OverviewMetrics.t;
  recentBookings : list Booking.t;
  roomTypeDistribution : list (ChartDataItem Z);
  bookingTrends : list TrendDataItem;
  bookingSources : list (ChartDataItem Z);
  bookingStatus : list (ChartDataItem Z);
  roomStatus : list (ChartDataItem Z);
  roomTypePerformance : list (ChartDataItem Z);
  floorOccupancy : list (ChartDataItem Z);
  occupancyTimeline : list TrendDataItem;
  guestTypes : list (ChartDataItem Z);
  stayDuration : list (ChartDataItem Z);
  guestSatisfaction : list (ChartDataItem Z);
  topGuests : list GuestItem.t;
  guestDemographics : list (ChartDataItem Z);
  revenueTrends : list TrendDataItem;
  revenueByRoomType : list (ChartDataItem Q);
  paymentMethods : list (ChartDataItem Z)
}.
End DashboardData.

(** ** Coercions of the source *)

Definition len {A} (l : list A) : Z := Z.of_nat (List.length l).

(** [x || d] on an amount; [None] is undefined or NaN *)
Definition Number_or (x : option Q) (d : Q) : Q :=
  match x with
  | Some a => if Qeq_bool a 0 then d else a
  | None => d
  end.

(** [x || d] on a count; [None] is undefined or NaN *)
Definition Number_orZ (x : option Z) (d : Z) : Z :=
  match x with
  | Some a => if a =? 0 then d else a
  | None => d
  end.

(** [s || d] on an optional string *)
Definition string_or (x : option string) (d : string) : string :=
  match x with
  | Some s => if (s =? "")%string then d else s
  | None => d
  end.

(** [Number(booking.totalAmount) || 0] *)
Definition amount (booking : Booking.t) : Q :=
  Number_or (Booking.totalAmount booking) 0.

(** [new Set(l).size] *)
Definition Set_size (l : list string) : Z := len (nodup string_dec l).

(** ** Filtering and the comparison period *)

Definition filteredBookings (bookings : list Booking.t) (from to : Z) : list Booking.t :=
  filter (fun booking =>
            let checkInDate := Booking.checkInDate booking in
            date_ge checkInDate (Some from) && date_le checkInDate (Some to))
         bookings.

Definition previousPeriodStart (from to : Z) : JsDate :=
  subDays (Some from) (to - from).

Definition previousPeriodEnd (from : Z) : JsDate :=
  subDays (Some from) 1.

Definition previousPeriodBookings (bookings : list Booking.t) (from to : Z) : list Booking.t :=
  filter (fun booking =>
            let checkInDate := Booking.checkInDate booking in
            date_ge checkInDate (previousPeriodStart from to)
            && date_le checkInDate (previousPeriodEnd from))
         bookings.

(** [previous ? ((current - previous) / previous) * 100 : 0], on counts *)
Definition totalBookingsChange (totalBookings previousTotalBookings : Z) : Q :=
  if previousTotalBookings =? 0 then 0%Q
  else ((inject_Z (totalBookings - previousTotalBookings)
         / inject_Z previousTotalBookings) * 100)%Q.

(** the reduction of [totalRevenue] and of [previousTotalRevenue] *)
Definition totalRevenue (l : list Booking.t) : Q :=
  fold_left (fun sum booking => (sum + amount booking)%Q) l 0%Q.

Definition totalRevenueChange (totalRevenue previousTotalRevenue : Q) : Q :=
  if Qeq_bool previousTotalRevenue 0 then 0%Q
  else (((totalRevenue - previousTotalRevenue) / previousTotalRevenue) * 100)%Q.

(** ** Occupancy, ADR and RevPAR *)

Definition activeRooms (rooms : list Room.t) : Z :=
  len (filter Room.isActive rooms).

Definition occupiedRooms (filteredBookings : list Booking.t) : Z :=
  Set_size (map Booking.roomId filteredBookings).

Definition occupancyRate (activeRooms occupiedRooms : Z) : Z :=
  if activeRooms =? 0 then 0
  else Math_round ((inject_Z occupiedRooms / inject_Z activeRooms) * 100)%Q.

(** [Math.ceil((checkOut.getTime() - checkIn.getTime()) / msPerDay)];
    [None] is NaN. *)
Definition nights (booking : Booking.t) : option Z :=
  match Booking.checkOutDate booking, Booking.checkInDate booking with
  | Some checkOut, Some checkIn =>
      Some (Math_ceil (inject_Z (checkOut - checkIn) / inject_Z msPerDay))
  | _, _ => None
  end.

(** [nights > 0 ? nights : 1] *)
Definition nightsOrOne (booking : Booking.t) : Z :=
  match nights booking with
  | Some n => if 0 <? n then n else 1
  | None => 1
  end.

Definition totalNights (filteredBookings : list Booking.t) : Z :=
  fold_left (fun sum booking => sum + nightsOrOne booking) filteredBookings 0.

Definition averageDailyRate (totalRevenue : Q) (totalNights : Z) : Z :=
  if totalNights =? 0 then 0
  else Math_round (totalRevenue / inject_Z totalNights)%Q.

Definition totalRoomNights (activeRooms from to : Z) : Z :=
  activeRooms * Math_ceil (inject_Z (to - from) / inject_Z msPerDay).

Definition revPAR (totalRevenue : Q) (totalRoomNights : Z) : Z :=
  if totalRoomNights =? 0 then 0
  else Math_round (totalRevenue / inject_Z totalRoomNights)%Q.

(** ** Category distributions *)

(** [acc[index].value += v] at the first index whose name is [key] *)
Fixpoint addAtFirst {V} (add : V -> V -> V) (key : string) (v : V)
  (acc : list (ChartDataItem V)) : list (ChartDataItem V) :=
  match acc with
  | [] => []
  | item :: r =>
      if (name item =? key)%string
      then {| name := name item; value := add (value item) v |} :: r
      else item :: addAtFirst add key v r
  end.

(** One step of the group-by reductions: push a new item when no item has
    the name, add to the first such item otherwise. *)
Definition tally {V} (add : V -> V -> V) (key : string) (v : V)
  (acc : list (ChartDataItem V)) : list (ChartDataItem V) :=
  if existsb (fun item => (name item =? key)%string) acc
  then addAtFirst add key v acc
  else acc ++ [ {| name := key; value := v |} ].

Definition roomTypeDistribution (rooms : list Room.t) : list (ChartDataItem Z) :=
  fold_left (fun acc room => tally Z.add (Room.roomType room) 1 acc) rooms [].

Definition bookingSources (filteredBookings : list Booking.t) : list (ChartDataItem Z) :=
  fold_left (fun acc booking =>
               tally Z.add (string_or (Booking.bookingSource booking) "Direct") 1 acc)
            filteredBookings [].

Definition bookingStatus (filteredBookings : list Booking.t) : list (ChartDataItem Z) :=
  fold_left (fun acc booking => tally Z.add (Booking.bookingStatus booking) 1 acc)
            filteredBookings [].

Definition revenueByRoomType (filteredBookings : list Booking.t) : list (ChartDataItem Q) :=
  fold_left (fun acc booking => tally Qplus (Booking.roomType booking) (amount booking) acc)
            filteredBookings [].

Definition countStatus (rooms : list Room.t) (s : string) : Z :=
  len (filter (fun r => (Room.status r =? s)%string) rooms).

Definition roomStatus (rooms : list Room.t) : list (ChartDataItem Z) :=
  [ {| name := "Available"; value := countStatus rooms "AVAILABLE" |};
    {| name := "Occupied"; value := countStatus rooms "OCCUPIED" |};
    {| name := "Maintenance"; value := countStatus rooms "MAINTENANCE" |};
    {| name := "Cleaning"; value := countStatus rooms "CLEANING" |} ].

Definition roomTypePerformance (roomTypeDistribution : list (ChartDataItem Z))
  (filteredBookings : list Booking.t) : list (ChartDataItem Z) :=
  map (fun type =>
         let typeBookings :=
           filter (fun b => (Booking.roomType b =? name type)%string) filteredBookings in
         {| name := name type; value := len typeBookings |})
      roomTypeDistribution.

(** ** Daily trends *)

(** The record keyed by [format(checkIn, 'yyyy-MM-dd')]; the key is
    represented by the day number of the check-in instant.  [format] is only
    reached with the valid check-in dates of filtered bookings. *)
Definition bookingsByDate (filteredBookings : list Booking.t) : list (Z * (Z * Q)) :=
  fold_left (fun acc booking =>
               match Booking.checkInDate booking with
               | Some t =>
                   let date := t / msPerDay in
                   let acc1 :=
                     match assoc_get Z.eqb date acc with
                     | Some _ => acc
                     | None => assoc_set Z.eqb date (0, 0%Q) acc
                     end in
                   match assoc_get Z.eqb date acc1 with
                   | Some (count, rev) =>
                       assoc_set Z.eqb date (count + 1, (rev + amount booking)%Q) acc1
                   | None => acc1
                   end
               | None => acc
               end)
            filteredBookings [].

(** The keys are never array indices, so [Object.keys] is insertion order. *)
Definition bookingTrends (h : Host) (bookingsByDate : list (Z * (Z * Q))) : list TrendDataItem :=
  Array_sort (fun a b => labelTime h (date a) <=? labelTime h (date b))
    (map (fun entry =>
            {| date := fst entry * msPerDay;
               bookings := Some (fst (snd entry));
               revenue := Some (snd (snd entry));
               occupancy := None |})
         bookingsByDate).

Definition revenueTrends (bookingTrends : list TrendDataItem) : list TrendDataItem :=
  map (fun day => {| date := date day; bookings := None;
                     revenue := revenue day; occupancy := None |})
      bookingTrends.

(** ** Guests *)

Definition totalGuests (filteredBookings : list Booking.t) : Z :=
  fold_left (fun sum booking => sum + Number_orZ (Booking.numberOfGuests booking) 1)
            filteredBookings 0.

Definition guestTypes (filteredBookings : list Booking.t) : list (ChartDataItem Z) :=
  let guestEmails := map (fun b => Guest.email (Booking.guest b)) filteredBookings in
  let newGuests := Set_size guestEmails in
  let returningGuests := len guestEmails - newGuests in
  [ {| name := "New"; value := newGuests |};
    {| name := "Returning";
       value := if 0 <? returningGuests then returningGuests else 0 |} ].

(** [Math.round(filteredBookings.length * share)] of the mock series *)
Definition mockShare (n : Z) (share : Q) : Z := Math_round (inject_Z n * share)%Q.

Definition mockSeries (n : Z) (shares : list (string * Q)) : list (ChartDataItem Z) :=
  map (fun s => {| name := fst s; value := mockShare n (snd s) |}) shares.

Definition guestSatisfaction (n : Z) : list (ChartDataItem Z) :=
  mockSeries n [ ("5 Stars", 6 # 10); ("4 Stars", 3 # 10); ("3 Stars", 7 # 100);
                 ("2 Stars", 2 # 100); ("1 Star", 1 # 100) ]%Q.

Definition guestDemographics (n : Z) : list (ChartDataItem Z) :=
  mockSeries n [ ("United States", 4 # 10); ("Canada", 15 # 100);
                 ("United Kingdom", 12 # 100); ("Australia", 8 # 100);
                 ("Germany", 5 # 100); ("Other", 2 # 10) ]%Q.

Definition paymentMethods (n : Z) : list (ChartDataItem Z) :=
  mockSeries n [ ("Credit Card", 7 # 10); ("Debit Card", 15 # 100);
                 ("PayPal", 1 # 10); ("Cash", 5 # 100) ]%Q.

Definition stayDuration (n : Z) : list (ChartDataItem Z) :=
  mockSeries n [ ("1-3 days", 6 # 10); ("4-7 days", 3 # 10);
                 ("8-14 days", 7 # 100); ("15+ days", 3 # 100) ]%Q.

(** The three dictionaries filled by the [forEach]: booking count, spending
    and display name per guest email. *)
Record GuestStats : Type := {
  guestBookingCount : list (string * Z);
  guestSpending : list (string * Q);
  guestNames : list (string * string)
}.

Definition guestStep (h : Host) (st : GuestStats) (booking : Booking.t) : GuestStats :=
  let email := Guest.email (Booking.guest booking) in
  if (email =? "")%string then st
  else
    {| guestBookingCount :=
         assoc_set String.eqb email
           (Number_orZ (assoc_get String.eqb email (guestBookingCount st)) 0 + 1)
           (guestBookingCount st);
       guestSpending :=
         assoc_set String.eqb email
           (Number_or (assoc_get String.eqb email (guestSpending st)) 0 + amount booking)%Q
           (guestSpending st);
       guestNames :=
         assoc_set String.eqb email
           (trim h (Guest.firstName (Booking.guest booking) ++ " "
                    ++ Guest.lastName (Booking.guest booking)))
           (guestNames st) |}.

Definition guestStats (h : Host) (filteredBookings : list Booking.t) : GuestStats :=
  fold_left (guestStep h) filteredBookings
    {| guestBookingCount := []; guestSpending := []; guestNames := [] |}.

(** [o[key]] for a key of [o] *)
Definition at_key {V} (o : list (string * V)) (key : string) (undefined : V) : V :=
  match assoc_get String.eqb key o with Some v => v | None => undefined end.

Definition guestItem (st : GuestStats) (email : string) : GuestItem.t :=
  {| GuestItem.name := string_or (assoc_get String.eqb email (guestNames st)) "Guest";
     GuestItem.email := email;
     GuestItem.bookings := at_key (guestBookingCount st) email 0;
     GuestItem.totalSpent := at_key (guestSpending st) email 0%Q |}.

(** comparator [(a, b) => b.totalSpent - a.totalSpent]: [a] stays before
    [b] when the difference is not positive *)
Definition bySpendingDesc (a b : GuestItem.t) : bool :=
  Qle_bool (GuestItem.totalSpent b) (GuestItem.totalSpent a).

Definition topGuests (h : Host) (filteredBookings : list Booking.t) : list GuestItem.t :=
  let st := guestStats h filteredBookings in
  slice0 10 (Array_sort bySpendingDesc
               (map (guestItem st) (Object_keys (guestBookingCount st)))).

(** ** Series that may draw from [Math.random] *)

(** A computation that calls [Math.random]: the state is the number of
    calls made so far. *)
Definition Rand (A : Type) : Type := nat -> A * nat.

Definition ret {A} (a : A) : Rand A := fun k => (a, k).

Definition bind {A B} (m : Rand A) (f : A -> Rand B) : Rand B :=
  fun k => let (a, k') := m k in f a k'.

Notation "x <- m ;; f" := (bind m (fun x => f))
  (at level 61, m at next level, right associativity).

(** [Math.floor(Math.random() * 100)] *)
Definition randomPercent (h : Host) : Rand Z :=
  fun k => (Math_floor (Math_random h k * 100)%Q, S k).

Definition string_of_Z (i : Z) : string := NilZero.string_of_int (Z.to_int i).

(** The body of [for (let i = 1; i <= n; i++)], from [i] on. *)
Fixpoint floorOccupancy_loop (h : Host) (rooms : list Room.t) (n : Z)
  (fuel : nat) (i : Z) : Rand (list (ChartDataItem Z)) :=
  match fuel with
  | O => ret []
  | S fuel' =>
      if i <=? n then
        let floorRooms :=
          filter (fun r => match Room.floor r with
                           | Some f => f =? i
                           | None => false
                           end) rooms in
        let occupiedFloorRooms :=
          filter (fun r => (Room.status r =? "OCCUPIED")%string) floorRooms in
        floorOccupancyRate <-
          (if 0 <? len floorRooms
           then ret (Math_round ((inject_Z (len occupiedFloorRooms)
                                  / inject_Z (len floorRooms)) * 100)%Q)
           else randomPercent h) ;;
        rest <- floorOccupancy_loop h rooms n fuel' (i + 1) ;;
        ret ({| name := "Floor " ++ string_of_Z i; value := floorOccupancyRate |} :: rest)
      else ret []
  end.

(** [hotel.floorCount || 4] iterations at most. *)
Definition floorOccupancy (h : Host) (hotel : Hotel.t) (rooms : list Room.t)
  : Rand (list (ChartDataItem Z)) :=
  let n := if Hotel.floorCount hotel =? 0 then 4 else Hotel.floorCount hotel in
  floorOccupancy_loop h rooms n (Z.to_nat n) 1.

(** [currentDate >= checkIn && currentDate <= checkOut] *)
Definition covers (currentDate : JsDate) (b : Booking.t) : bool :=
  date_ge currentDate (Booking.checkInDate b)
  && date_le currentDate (Booking.checkOutDate b).

(** The body of [while (currentDate <= dateRange.to)]. *)
Fixpoint occupancyTimeline_loop (h : Host) (filteredBookings : list Booking.t)
  (activeRooms to : Z) (fuel : nat) (currentDate : JsDate) : Rand (list TrendDataItem) :=
  match fuel with
  | O => ret []
  | S fuel' =>
      match currentDate with
      | Some t =>
          if t <=? to then
            let dateBookings := filter (covers currentDate) filteredBookings in
            dayOccupancyRate <-
              (if 0 <? activeRooms
               then ret (Math_round ((inject_Z (len dateBookings)
                                      / inject_Z activeRooms) * 100)%Q)
               else randomPercent h) ;;
            rest <- occupancyTimeline_loop h filteredBookings activeRooms to fuel'
                      (setDate_plus currentDate 1) ;;
            ret ({| date := t; bookings := None; revenue := None;
                    occupancy := Some dayOccupancyRate |} :: rest)
          else ret []
      | None => ret []
      end
  end.

(** Number of days the loop can visit between [from] and [to]. *)
Definition timelineFuel (from to : Z) : nat := Z.to_nat ((to - from) / msPerDay + 1).

Definition occupancyTimeline (h : Host) (filteredBookings : list Booking.t)
  (activeRooms from to : Z) : Rand (list TrendDataItem) :=
  occupancyTimeline_loop h filteredBookings activeRooms to (timelineFuel from to) (Some from).

(** ** processGraphQLData *)

(** [getHotels.find(h => h.id === selectedHotel?.id) || getHotels[0]] *)
Definition findHotel (selectedHotel : option string) (getHotels : list Hotel.t)
  : option Hotel.t :=
  match find (fun h => match selectedHotel with
                       | Some i => (Hotel.id h =? i)%string
                       | None => false
                       end) getHotels with
  | Some h => Some h
  | None => hd_error getHotels
  end.

(** The result is [None] when the source throws: on a date range without
    [from] or [to], and on [hotel.floorCount] when no hotel was found. *)
Definition processGraphQLData (h : Host) (selectedHotel : option string)
  (getHotels : list Hotel.t) (rooms : list Room.t) (bookings : list Booking.t)
  (dateRange : DateRange) : option DashboardData.t :=
  match from dateRange, to dateRange with
  | Some from, Some to =>
      match findHotel selectedHotel getHotels with
      | None => None
      | Some hotel =>
          let filteredBookings := filteredBookings bookings from to in
          let totalBookings := len filteredBookings in
          let previousPeriodBookings := previousPeriodBookings bookings from to in
          let previousTotalBookings := len previousPeriodBookings in
          let totalBookingsChange := totalBookingsChange totalBookings previousTotalBookings in
          let previousTotalRevenue := totalRevenue previousPeriodBookings in
          let totalRevenue := totalRevenue filteredBookings in
          let totalRevenueChange := totalRevenueChange totalRevenue previousTotalRevenue in
          let activeRooms := activeRooms rooms in
          let occupiedRooms := occupiedRooms filteredBookings in
          let occupancyRate := occupancyRate activeRooms occupiedRooms in
          let totalNights := totalNights filteredBookings in
          let averageDailyRate := averageDailyRate totalRevenue totalNights in
          let totalRoomNights := totalRoomNights activeRooms from to in
          let revPAR := revPAR totalRevenue totalRoomNights in
          let roomTypeDistribution := roomTypeDistribution rooms in
          let bookingTrends := bookingTrends h (bookingsByDate filteredBookings) in
          let series :=
            (floorOccupancy <- floorOccupancy h hotel rooms ;;
             occupancyTimeline <- occupancyTimeline h filteredBookings activeRooms from to ;;
             ret (floorOccupancy, occupancyTimeline)) 0%nat in
          Some
            {| DashboardData.overview :=
                 {| OverviewMetrics.totalBookings := totalBookings;
                    OverviewMetrics.totalBookingsChange := Math_round totalBookingsChange;
                    OverviewMetrics.occupancyRate := occupancyRate;
                    OverviewMetrics.occupancyRateChange := 0;
                    OverviewMetrics.totalRevenue := totalRevenue;
                    OverviewMetrics.totalRevenueChange := Math_round totalRevenueChange;
                    OverviewMetrics.averageDailyRate := averageDailyRate;
                    OverviewMetrics.averageDailyRateChange := 0;
                    OverviewMetrics.revPAR := revPAR;
                    OverviewMetrics.totalGuests := totalGuests filteredBookings;
                    OverviewMetrics.totalRooms :=
                      if Hotel.roomCount hotel =? 0 then len rooms
                      else Hotel.roomCount hotel |};
               DashboardData.recentBookings := filteredBookings;
               DashboardData.roomTypeDistribution := roomTypeDistribution;
               DashboardData.bookingTrends := bookingTrends;
               DashboardData.bookingSources := bookingSources filteredBookings;
               DashboardData.bookingStatus := bookingStatus filteredBookings;
               DashboardData.roomStatus := roomStatus rooms;
               DashboardData.roomTypePerformance :=
                 roomTypePerformance roomTypeDistribution filteredBookings;
               DashboardData.floorOccupancy := fst (fst series);
               DashboardData.occupancyTimeline := snd (fst series);
               DashboardData.guestTypes := guestTypes filteredBookings;
               DashboardData.stayDuration := stayDuration totalBookings;
               DashboardData.guestSatisfaction := guestSatisfaction totalBookings;
               DashboardData.topGuests := topGuests h filteredBookings;
               DashboardData.guestDemographics := guestDemographics totalBookings;
               DashboardData.revenueTrends := revenueTrends bookingTrends;
               DashboardData.revenueByRoomType := revenueByRoomType filteredBookings;
               DashboardData.paymentMethods := paymentMethods totalBookings |}
      end
  | _, _ => None
  end.

End Dashboard.

(* ================================================================== *)
(** * Reference notions and sample data *)
(* ================================================================== *)

(** Sum of a list of amounts, from the right. *)
Definition sumQ (l : list Q) : Q := fold_right Qplus 0%Q l.

(** Sum of a list of counts, from the right. *)
Definition sumZ (l : list Z) : Z := fold_right Z.add 0 l.


(** The check-in instant lies in the closed interval [[lo, hi]]. *)
Definition checkInWithin (lo hi : Z) (b : Dashboard.Booking.t) : Prop :=
  exists t, Dashboard.Booking.checkInDate b = Some t /\ lo <= t <= hi.





Module Samples.
Import Dashboard.

(** Midnight UTC of day [n] after the epoch. *)
Definition day (n : Z) : Z := n * msPerDay.

(** A host for the evaluations: it reads three date strings, [trim] has
    nothing to strip on the sample names, labels are read back at their own
    instant, and [Math.random] returns one half. *)
Definition host : Host :=
  {| parseDate := fun s =>
       if (s =? "1970-01-01")%string then Some (day 0)
       else if (s =? "1970-01-02")%string then Some (day 1)
       else if (s =? "1970-01-04")%string then Some (day 3)
       else None;
     trim := fun s => s;
     labelTime := fun t => t;
     Math_random := fun _ => (1 # 2)%Q |}.

Definition booking (roomId email : string) (checkIn checkOut : JsDate) (total : Q)
  : Booking.t :=
  {| Booking.id := "bk-" ++ roomId;
     Booking.roomId := roomId;
     Booking.guest :=
       {| Guest.firstName := "Ada"; Guest.lastName := "Roy"; Guest.email := email |};
     Booking.bookingSource := None;
     Booking.checkInDate := checkIn;
     Booking.checkOutDate := checkOut;
     Booking.roomType := "DELUXE";
     Booking.bookingStatus := "CONFIRMED";
     Booking.totalAmount := Some total;
     Booking.numberOfGuests := Some 2 |}.

Definition room (id : string) (isActive : bool) : Room.t :=
  {| Room.id := id;
     Room.roomType := "DELUXE";
     Room.status := "AVAILABLE";
     Room.isActive := isActive;
     Room.floor := Some 1 |}.

(** Two floors; the sample rooms are all on the first one. *)
Definition hotel : Hotel.t :=
  {| Hotel.id := "hotel-1"; Hotel.floorCount := 2; Hotel.roomCount := 0 |}.


Definition range (from to : Z) : DateRange :=
  {| Dashboard.from := Some from; Dashboard.to := Some to |}.

End Samples.

(* ================================================================== *)
(** * Further code of the repository *)
(* ================================================================== *)

(** [[...new Set(l)]]: the distinct values in the order of their first
    occurrence. *)
Definition Set_values {A} (eqb : A -> A -> bool) (l : list A) : list A :=
  fold_left (fun acc x => if existsb (eqb x) acc then acc else (acc ++ [x])%list) l [].

(** The value of the first chart item named [key]. *)
Fixpoint chart_get {V} (key : string) (acc : list (Dashboard.ChartDataItem V)) : option V :=
  match acc with
  | [] => None
  | item :: r =>
      if (Dashboard.name item =? key)%string then Some (Dashboard.value item)
      else chart_get key r
  end.

(** The values of a group added up from the left, first value first;
    nothing for an empty group. *)
Definition sum1 {V} (add : V -> V -> V) (vs : list V) : option V :=
  match vs with
  | [] => None
  | v :: r => Some (fold_left add r v)
  end.




(** [Number(booking.numberOfGuests) || 1] *)
Definition guestsOf (b : Dashboard.Booking.t) : Z :=
  Dashboard.Number_orZ (Dashboard.Booking.numberOfGuests b) 1.




(** ** The dashboard page around [processGraphQLData] *)

Module DashboardPage.

(** [handleDateRangeChange]: the picker's new range replaces the state only
    when it is defined and has both ends. *)
Definition handleDateRangeChange (dateRange : Dashboard.DateRange)
  (newDateRange : option Dashboard.DateRange) : Dashboard.DateRange :=
  match newDateRange with
  | Some r =>
      match Dashboard.from r, Dashboard.to r with
      | Some _, Some _ => r
      | _, _ => dateRange
      end
  | None => dateRange
  end.

End DashboardPage.

(** ** The price summary and the room-charge dialog of the booking panel *)

Module BookingPanel.











(** What a click on "Add Room Charge" leads to. *)
Inductive ChargeOutcome : Type :=
| nothing
| invalidAmountToast
| handleAddRoomCharge (description : string) (amount : Q) (chargeType notes : string).

(** The click handler of "Add Room Charge".  The three arguments are the
    answers of the three [prompt] calls ([None] when the dialog is
    cancelled); [parseFloat] is the engine's on answers that read as a finite
    number or as no number at all, [None] standing for NaN. *)
Definition onAddRoomCharge (parseFloat : string -> option Q)
  (descriptionAnswer amountAnswer notesAnswer : option string) : ChargeOutcome :=
  match descriptionAnswer with
  | None => nothing
  | Some description =>
      if (description =? "")%string then nothing
      else
        match parseFloat (Dashboard.string_or amountAnswer "0") with
        | None => invalidAmountToast
        | Some amount =>
            if Qle_bool amount 0 then invalidAmountToast
            else handleAddRoomCharge description amount "room_service"
                   (Dashboard.string_or notesAnswer "")
        end
  end.

End BookingPanel.

(** ** The booking calendar page *)

Module BookingAnalytics.

(** A room as the page holds it; [roomNumber] and [floor] are [None] when
    the field is [null]. *)
Record Room : Type := {
  room_id : string;
  room_roomNumber : option string;
  room_floor : option Z;
  room_roomType : string
}.


(** A booking of the page state. *)
Record Booking : Type := {
  id : string;
  roomId : option string;
  roomType : string;
  bookingStatus : string;
  checkInDate : JsDate;
  checkOutDate : JsDate;
  roomNumber : string;
  floor : Z;
  paymentStatus : string;
  totalAmount : Q;
  numberOfGuests : Z
}.



(** The toast of [fetchBookings] about bookings that were not in the
    previous list: its description, if it is shown. *)
Definition newBookingsToast (current bookingsData : list Booking) : option string :=
  if (0 <? Dashboard.len current) && (Dashboard.len current <? Dashboard.len bookingsData)
  then
    let currentBookingIds := map id current in
    let newBookings :=
      filter (fun b => negb (existsb (String.eqb (id b)) currentBookingIds)) bookingsData in
    if 0 <? Dashboard.len newBookings
    then Some (Dashboard.string_of_Z (Dashboard.len newBookings) ++ " new booking"
               ++ (if Dashboard.len newBookings =? 1 then "" else "s") ++ " added.")
    else None
  else None.

(** The room ids [fetchAllRoomDetails] asks for: those of bookings that have
    one without cached details, each once. *)
Definition roomIdsToFetch (roomDetails : list (string * Room))
  (bookingsData : list Booking) : list string :=
  Set_values String.eqb
    (flat_map (fun booking =>
                 match roomId booking with
                 | Some i =>
                     if (i =? "")%string then []
                     else match assoc_get String.eqb i roomDetails with
                          | Some _ => []
                          | None => [i]
                          end
                 | None => []
                 end)
              bookingsData).

(** The predicate of [filteredBookings]; a filter set to ["all"] lets every
    booking through. *)
Definition passesFilters (selectedFloor selectedRoomType selectedStatus : string)
  (booking : Booking) : bool :=
  if negb (selectedFloor =? "all")%string
     && negb (Dashboard.string_of_Z (floor booking) =? selectedFloor)%string
  then false
  else if negb (selectedRoomType =? "all")%string
          && negb (roomType booking =? selectedRoomType)%string
  then false
  else if negb (selectedStatus =? "all")%string
          && negb (bookingStatus booking =? selectedStatus)%string
  then false
  else true.

Definition filteredBookings (selectedFloor selectedRoomType selectedStatus : string)
  (bookings : list Booking) : list Booking :=
  filter (passesFilters selectedFloor selectedRoomType selectedStatus) bookings.

Record OccupancyData : Type := { date : Z; percentage : Z; available : Z }.

(** One element of [occupancyData], for the day [day] of the month. *)
Definition occupancyOn (rooms : list Room) (filteredBookings : list Booking) (day : Z)
  : OccupancyData :=
  let dayBookings :=
    filter (fun booking =>
              date_ge (Some day) (checkInDate booking)
              && date_le (Some day) (checkOutDate booking))
           filteredBookings in
  let totalRooms := if 0 <? Dashboard.len rooms then Dashboard.len rooms else 20 in
  let occupiedRooms := Dashboard.len dayBookings in
  {| date := day;
     percentage := Math_round ((inject_Z occupiedRooms / inject_Z totalRooms) * 100)%Q;
     available := totalRooms - occupiedRooms |}.

Definition occupancyData (rooms : list Room) (filteredBookings : list Booking)
  (daysInMonth : list Z) : list OccupancyData :=
  map (occupancyOn rooms filteredBookings) daysInMonth.

(** The floor [fetchRooms] stores for a room of the response:
    [room.floor || 1]. *)
Definition storedFloor (room : Room) : Z := Dashboard.Number_orZ (room_floor room) 1.

(** [[...new Set(rooms.map(room => room.floor))].sort((a, b) => a - b)], on
    the rooms as [fetchRooms] stores them. *)
Definition floors (rooms : list Room) : list Z :=
  Array_sort (fun a b => a <=? b) (Set_values Z.eqb (map storedFloor rooms)).

(** [[...new Set(rooms.map(room => room.roomType))]] *)
Definition roomTypes (rooms : list Room) : list string :=
  Set_values String.eqb (map room_roomType rooms).

End BookingAnalytics.

(** ** The room grid of the booking form *)

Module RoomGrid.

Record Room : Type := {
  id : string;
  roomNumber : string;
  status : string;
  floor : Z
}.

(** One step of the reduction that fills [roomsByFloor]. *)
Definition addRoom (acc : list (Z * list Room)) (room : Room) : list (Z * list Room) :=
  let floor := floor room in
  let acc1 :=
    match assoc_get Z.eqb floor acc with
    | Some _ => acc
    | None => assoc_set Z.eqb floor [] acc
    end in
  match assoc_get Z.eqb floor acc1 with
  | Some floorRooms => assoc_set Z.eqb floor (floorRooms ++ [room])%list acc1
  | None => acc1
  end.

Definition roomsByFloor (rooms : list Room) : list (Z * list Room) :=
  fold_left addRoom rooms [].

(** A floor number whose property key is an array index. *)
Definition is_index_floor (f : Z) : bool := (0 <=? f) && (f <? 4294967295).

(** [Object.entries(roomsByFloor)]: array-index keys first, ascending, then
    the other keys in insertion order. *)
Definition Object_entries (o : list (Z * list Room)) : list (Z * list Room) :=
  (Array_sort (fun a b => fst a <=? fst b) (filter (fun e => is_index_floor (fst e)) o)
   ++ filter (fun e => negb (is_index_floor (fst e))) o)%list.

(** The floors as rendered: entries sorted by
    [Number(floorB) - Number(floorA)], the rooms of each floor sorted by
    [a.roomNumber.localeCompare(b.roomNumber)]. *)
Definition floorSections (localeCompare : string -> string -> Z) (rooms : list Room)
  : list (Z * list Room) :=
  map (fun entry =>
         (fst entry,
          Array_sort (fun a b => localeCompare (roomNumber a) (roomNumber b) <=? 0)
                     (snd entry)))
      (Array_sort (fun a b => fst b <=? fst a) (Object_entries (roomsByFloor rooms))).

End RoomGrid.

(* ================================================================== *)
(** * Properties *)
(* ================================================================== *)

(** ** The host functions on small inputs *)

Example Math_round_half_up : Math_round (5 # 2) = 3 /\ Math_round (- 5 # 2) = -2.
Proof. split; reflexivity. Qed.

Example Math_ceil_negative : Math_ceil (- 1 # 2) = 0 /\ Math_ceil (1 # 1000) = 1.
Proof. split; reflexivity. Qed.

Example subDays_one_day : subDays (Some (20000 * msPerDay)) 1 = Some (19999 * msPerDay).
Proof. reflexivity. Qed.

Example subDays_out_of_range : subDays (Some 0) 100000001 = None.
Proof. reflexivity. Qed.

Example Array_sort_is_stable :
  Array_sort (fun a b => fst a <=? fst b) [(2, "a"); (1, "b"); (2, "c"); (1, "d")]
  = [(1, "b"); (1, "d"); (2, "a"); (2, "c")].
Proof. reflexivity. Qed.

Example Object_keys_order :
  Object_keys [("bob@example.org", 1); ("10", 2); ("007", 3); ("2", 4)]
  = ["2"; "10"; "bob@example.org"; "007"].
Proof. reflexivity. Qed.

Example middleware_segment_prefix :
  Middleware.middleware (JWT := unit) "/dashboardx" None = Middleware.next
  /\ Middleware.middleware (JWT := unit) "/about" None = Middleware.next
  /\ Middleware.middleware (JWT := unit) "/" None
     = Middleware.redirect "/login" [("callbackUrl", "/")]
  /\ Middleware.middleware "/dashboard" (Some tt) = Middleware.next.
Proof. repeat split; reflexivity. Qed.

(** ** Rounding *)

Lemma Qfloor_unique (x : Q) (z : Z) :
  (inject_Z z <= x)%Q -> (x < inject_Z (z + 1))%Q -> Qfloor x = z.
Proof.
  intros Hlo Hhi.
  assert (H1 : z <= Qfloor x).
  { rewrite <- (Qfloor_Z z). now apply Qfloor_resp_le. }
  assert (H2 : Qfloor x < z + 1).
  { rewrite Zlt_Qlt. eapply Qle_lt_trans; [apply Qfloor_le | exact Hhi]. }
  lia.
Qed.

Lemma Math_round_inject_Z (n : Z) : Math_round (inject_Z n) = n.
Proof.
  unfold Math_round. apply Qfloor_unique.
  - rewrite <- (Qplus_0_r (inject_Z n)) at 1. apply Qplus_le_r. discriminate.
  - rewrite inject_Z_plus. apply Qplus_lt_r. reflexivity.
Qed.

Lemma Math_round_mono (x y : Q) : (x <= y)%Q -> Math_round x <= Math_round y.
Proof.
  intros H. unfold Math_round. apply Qfloor_resp_le. now apply Qplus_le_l.
Qed.

Lemma Math_round_comp (x y : Q) : (x == y)%Q -> Math_round x = Math_round y.
Proof. intros H. unfold Math_round. now rewrite H. Qed.

Lemma Math_round_zero : Math_round 0 = 0.
Proof. reflexivity. Qed.

(** ** Strings *)

Lemma append_assoc (a b c : string) : ((a ++ b) ++ c = a ++ (b ++ c))%string.
Proof. induction a as [|x a IH]; simpl; [reflexivity | now rewrite IH]. Qed.

Lemma prefix_iff (p s : string) :
  String.prefix p s = true <-> exists rest, s = (p ++ rest)%string.
Proof.
  revert s. induction p as [|c p IH]; intros s.
  - split; [intros _; now exists s | intros _; now destruct s].
  - destruct s as [|d s]; simpl.
    + split; [discriminate | intros [rest H]; discriminate].
    + destruct (ascii_dec c d) as [->|Hne].
      * rewrite IH. split; intros [rest H]; exists rest; [now rewrite H | now inversion H].
      * split; [discriminate | intros [rest H]; inversion H; congruence].
Qed.

Lemma matchesPath_iff (pathname p : string) :
  Middleware.matchesPath pathname p = true <->
  pathname = p \/ exists rest, pathname = (p ++ "/" ++ rest)%string.
Proof.
  unfold Middleware.matchesPath, Middleware.startsWith.
  rewrite orb_true_iff, String.eqb_eq, prefix_iff.
  split; intros [H | [rest H]]; auto; right; exists rest.
  - now rewrite H, append_assoc.
  - now rewrite append_assoc.
Qed.

Lemma listed_iff (l : list string) (pathname : string) :
  existsb (Middleware.matchesPath pathname) l = true <-> Middleware.listed l pathname.
Proof.
  unfold Middleware.listed. rewrite existsb_exists.
  split; intros [p [Hin H]]; exists p; split; auto; now apply matchesPath_iff.
Qed.

Lemma not_listed_iff (l : list string) (pathname : string) :
  existsb (Middleware.matchesPath pathname) l = false <-> ~ Middleware.listed l pathname.
Proof.
  rewrite <- listed_iff. destruct (existsb _ l); split; congruence.
Qed.

(** ** The access guard *)

(** C7.  For every path and token state the guard takes one of three
    decisions: a path on the protected list (the entry itself, or the entry
    continued after a slash) without a token is redirected to [/login] with
    [callbackUrl] set to the path; a path on the auth-route list with a token
    is redirected to [/dashboard]; every other request proceeds. *)
Theorem middleware_decision (JWT : Type) (pathname : string) (token : option JWT) :
  (Middleware.listed Middleware.protectedPaths pathname /\ token = None ->
   Middleware.middleware pathname token
   = Middleware.redirect "/login" [("callbackUrl", pathname)])
  /\ (Middleware.listed Middleware.authRoutes pathname /\ token <> None ->
      Middleware.middleware pathname token = Middleware.redirect "/dashboard" [])
  /\ (~ (Middleware.listed Middleware.protectedPaths pathname /\ token = None) ->
      ~ (Middleware.listed Middleware.authRoutes pathname /\ token <> None) ->
      Middleware.middleware pathname token = Middleware.next).
Proof.
  rewrite <- !listed_iff. unfold Middleware.middleware.
  destruct (existsb _ Middleware.protectedPaths);
    destruct (existsb _ Middleware.authRoutes);
    destruct token as [tk|]; simpl;
    (split; [|split]); intros; try reflexivity; exfalso; intuition congruence.
Qed.

Lemma middleware_decision_witness :
  Middleware.middleware (JWT := unit) "/dashboard/rooms" None
  = Middleware.redirect "/login" [("callbackUrl", "/dashboard/rooms")]
  /\ Middleware.middleware "/login" (Some tt) = Middleware.redirect "/dashboard" []
  /\ Middleware.middleware (JWT := unit) "/login" None = Middleware.next.
Proof.
  split; [|split].
  - apply (middleware_decision unit "/dashboard/rooms" None). split; [|reflexivity].
    exists "/dashboard". split; [simpl; tauto|]. right. now exists "rooms".
  - apply (middleware_decision unit "/login" (Some tt)). split; [|discriminate].
    exists "/login". split; [simpl; tauto|]. now left.
  - apply (middleware_decision unit "/login" None).
    + intros [H _]. apply listed_iff in H. discriminate H.
    + intros [_ H]. now apply H.
Defined.

(** ** The booking-details panel *)

Lemma Qceiling_nonneg (x : Q) : (0 <= x)%Q -> 0 <= Qceiling x.
Proof.
  intros H. change 0 with (Qceiling 0). now apply Qceiling_resp_le.
Qed.

Lemma days_nonneg (n : Z) : 0 <= n -> (0 <= inject_Z n / inject_Z msPerDay)%Q.
Proof.
  intros H. apply Qle_shift_div_l; [reflexivity|].
  rewrite Qmult_0_l. change 0%Q with (inject_Z 0). now rewrite <- Zle_Qle.
Qed.

(** C10.  [calculateNights] is at least 1 for every pair of date strings:
    it is 1 when one of them is empty, it does not depend on the order of
    the two dates (absolute difference), it is 1 when the two dates are the
    same instant, and on two dates that parse it is the number of started
    days between them, raised to 1. *)
Theorem calculateNights_at_least_one (h : Host) (checkInDate checkOutDate : string) :
  1 <= BookingDetails.calculateNights h checkInDate checkOutDate
  /\ (checkInDate = "" \/ checkOutDate = "" ->
      BookingDetails.calculateNights h checkInDate checkOutDate = 1)
  /\ BookingDetails.calculateNights h checkOutDate checkInDate
     = BookingDetails.calculateNights h checkInDate checkOutDate
  /\ (parseDate h checkInDate = parseDate h checkOutDate ->
      BookingDetails.calculateNights h checkInDate checkOutDate = 1)
  /\ (forall i o, checkInDate <> "" -> checkOutDate <> "" ->
      parseDate h checkInDate = Some i -> parseDate h checkOutDate = Some o ->
      BookingDetails.calculateNights h checkInDate checkOutDate
      = Z.max 1 (Qceiling (inject_Z (Z.abs (o - i)) / inject_Z msPerDay))).
Proof.
  unfold BookingDetails.calculateNights, Math_ceil.
  repeat split.
  - destruct (_ || _); [lia|].
    destruct (parseDate h checkOutDate) as [o|], (parseDate h checkInDate) as [i|]; try lia.
    pose proof (Qceiling_nonneg _ (days_nonneg _ (Z.abs_nonneg (o - i)))) as Hc.
    destruct (Z.eqb_spec (Qceiling (inject_Z (Z.abs (o - i)) / inject_Z msPerDay)) 0); lia.
  - intros [-> | ->]; simpl; [reflexivity|]. now rewrite orb_true_r.
  - rewrite (orb_comm (checkOutDate =? "")%string).
    destruct (_ || _); [reflexivity|].
    destruct (parseDate h checkOutDate) as [o|], (parseDate h checkInDate) as [i|];
      try reflexivity.
    replace (Z.abs (i - o)) with (Z.abs (o - i)) by lia. reflexivity.
  - intros Heq. destruct (_ || _); [reflexivity|]. rewrite Heq.
    destruct (parseDate h checkOutDate) as [o|]; [|reflexivity].
    now rewrite Z.sub_diag.
  - intros i o Hi Ho Hpi Hpo.
    apply String.eqb_neq in Hi, Ho. rewrite Hi, Ho, Hpi, Hpo. simpl.
    pose proof (Qceiling_nonneg _ (days_nonneg _ (Z.abs_nonneg (o - i)))) as Hc.
    destruct (Z.eqb_spec (Qceiling (inject_Z (Z.abs (o - i)) / inject_Z msPerDay)) 0); lia.
Qed.

Lemma calculateNights_at_least_one_witness :
  BookingDetails.calculateNights Samples.host "1970-01-04" "1970-01-01" = 3
  /\ BookingDetails.calculateNights Samples.host "1970-01-01" "1970-01-04" = 3
  /\ BookingDetails.calculateNights Samples.host "" "1970-01-04" = 1
  /\ BookingDetails.calculateNights Samples.host "1970-01-02" "1970-01-02" = 1
  /\ 1 <= BookingDetails.calculateNights Samples.host "next week" "1970-01-04".
Proof.
  destruct (calculateNights_at_least_one Samples.host "1970-01-04" "1970-01-01")
    as (_ & _ & Hsym & _ & Hval).
  destruct (calculateNights_at_least_one Samples.host "" "1970-01-04")
    as (_ & Hempty & _).
  destruct (calculateNights_at_least_one Samples.host "1970-01-02" "1970-01-02")
    as (_ & _ & _ & Hsame & _).
  destruct (calculateNights_at_least_one Samples.host "next week" "1970-01-04")
    as (Hge & _).
  split; [|split; [|split; [|split]]].
  - rewrite (Hval (Samples.day 3) (Samples.day 0)); try reflexivity; discriminate.
  - rewrite Hsym. rewrite (Hval (Samples.day 3) (Samples.day 0)); try reflexivity;
      discriminate.
  - apply Hempty. now left.
  - now apply Hsame.
  - exact Hge.
Defined.

(** ** Sums and filters *)

Import Dashboard.

Lemma len_nonneg {A} (l : list A) : 0 <= len l.
Proof. unfold len. lia. Qed.


Lemma fold_left_Qplus_acc {A} (f : A -> Q) (l : list A) (a : Q) :
  (fold_left (fun sum x => sum + f x) l a == a + sumQ (map f l))%Q.
Proof.
  revert a. induction l as [|x l IH]; intros a; simpl.
  - now rewrite Qplus_0_r.
  - rewrite IH. now rewrite Qplus_assoc.
Qed.

Lemma fold_left_Zplus_acc {A} (f : A -> Z) (l : list A) (a : Z) :
  fold_left (fun sum x => sum + f x) l a = a + sumZ (map f l).
Proof.
  revert a. induction l as [|x l IH]; intros a; simpl; [lia|]. rewrite IH. lia.
Qed.

Lemma totalRevenue_sumQ (l : list Booking.t) :
  (totalRevenue l == sumQ (map amount l))%Q.
Proof.
  unfold totalRevenue. rewrite fold_left_Qplus_acc. apply Qplus_0_l.
Qed.

Lemma sumQ_app (l1 l2 : list Q) : (sumQ (l1 ++ l2)%list == sumQ l1 + sumQ l2)%Q.
Proof.
  induction l1 as [|x l1 IH]; simpl.
  - now rewrite Qplus_0_l.
  - rewrite IH. apply Qplus_assoc.
Qed.

Lemma totalRevenue_app (l1 l2 : list Booking.t) :
  (totalRevenue (l1 ++ l2)%list == totalRevenue l1 + totalRevenue l2)%Q.
Proof.
  rewrite !totalRevenue_sumQ, map_app. apply sumQ_app.
Qed.

(** Inserting a booking whose amount counts for nothing leaves the sum of
    any filter of the list unchanged. *)
Lemma totalRevenue_filter_insert (p : Booking.t -> bool) (B1 B2 : list Booking.t)
  (b : Booking.t) :
  (amount b == 0)%Q ->
  (totalRevenue (filter p (B1 ++ b :: B2)%list) == totalRevenue (filter p (B1 ++ B2)%list))%Q.
Proof.
  intros Hb. rewrite !filter_app, !totalRevenue_app. simpl.
  destruct (p b); [|reflexivity].
  change (b :: filter p B2) with ([b] ++ filter p B2)%list.
  rewrite totalRevenue_app.
  assert (H1 : (totalRevenue [b] == 0)%Q).
  { unfold totalRevenue. simpl. rewrite Hb. reflexivity. }
  rewrite H1. now rewrite Qplus_0_l.
Qed.

Lemma Qeq_bool_comp (x y z : Q) : (x == y)%Q -> Qeq_bool x z = Qeq_bool y z.
Proof.
  intros H. destruct (Qeq_bool y z) eqn:E.
  - apply Qeq_bool_iff. apply Qeq_bool_iff in E. now rewrite H.
  - destruct (Qeq_bool x z) eqn:E'; [|reflexivity].
    apply Qeq_bool_iff in E'. rewrite H in E'. apply Qeq_bool_iff in E'. congruence.
Qed.

Lemma totalRevenueChange_comp (r r' p p' : Q) :
  (r == r')%Q -> (p == p')%Q -> (totalRevenueChange r p == totalRevenueChange r' p')%Q.
Proof.
  intros Hr Hp. unfold totalRevenueChange. rewrite (Qeq_bool_comp p p' 0 Hp).
  destruct (Qeq_bool p' 0); [reflexivity|]. now rewrite Hr, Hp.
Qed.

(** ** The fields of the returned dashboard *)

(** What [processGraphQLData] returns, field by field, in terms of the
    local computations of the source. *)
Lemma processGraphQLData_fields (h : Host) (selectedHotel : option string)
  (getHotels : list Hotel.t) (rooms : list Room.t) (bookings : list Booking.t)
  (from to : Z) (d : DashboardData.t) :
  processGraphQLData h selectedHotel getHotels rooms bookings
    {| Dashboard.from := Some from; Dashboard.to := Some to |} = Some d ->
  let fb := filteredBookings bookings from to in
  let pb := previousPeriodBookings bookings from to in
  let ov := DashboardData.overview d in
  DashboardData.recentBookings d = fb
  /\ OverviewMetrics.totalBookings ov = len fb
  /\ OverviewMetrics.totalBookingsChange ov
     = Math_round (totalBookingsChange (len fb) (len pb))
  /\ OverviewMetrics.occupancyRate ov = occupancyRate (activeRooms rooms) (occupiedRooms fb)
  /\ OverviewMetrics.totalRevenue ov = totalRevenue fb
  /\ OverviewMetrics.totalRevenueChange ov
     = Math_round (totalRevenueChange (totalRevenue fb) (totalRevenue pb))
  /\ OverviewMetrics.averageDailyRate ov
     = averageDailyRate (totalRevenue fb) (totalNights fb)
  /\ OverviewMetrics.revPAR ov
     = revPAR (totalRevenue fb) (totalRoomNights (activeRooms rooms) from to)
  /\ OverviewMetrics.totalGuests ov = totalGuests fb
  /\ DashboardData.bookingTrends d = bookingTrends h (bookingsByDate fb)
  /\ DashboardData.revenueTrends d = revenueTrends (bookingTrends h (bookingsByDate fb))
  /\ DashboardData.bookingSources d = bookingSources fb
  /\ DashboardData.bookingStatus d = bookingStatus fb
  /\ DashboardData.revenueByRoomType d = revenueByRoomType fb
  /\ DashboardData.roomTypePerformance d
     = roomTypePerformance (roomTypeDistribution rooms) fb
  /\ DashboardData.guestTypes d = guestTypes fb
  /\ DashboardData.stayDuration d = stayDuration (len fb)
  /\ DashboardData.guestSatisfaction d = guestSatisfaction (len fb)
  /\ DashboardData.guestDemographics d = guestDemographics (len fb)
  /\ DashboardData.paymentMethods d = paymentMethods (len fb)
  /\ DashboardData.topGuests d = topGuests h fb
  /\ exists hotel,
       findHotel selectedHotel getHotels = Some hotel
       /\ DashboardData.occupancyTimeline d
          = fst (occupancyTimeline h fb (activeRooms rooms) from to
                   (snd (floorOccupancy h hotel rooms 0%nat))).
Proof.
  intros Hd. unfold processGraphQLData in Hd. cbn [Dashboard.from Dashboard.to] in Hd.
  destruct (findHotel selectedHotel getHotels) as [hotel|]; [|discriminate].
  apply (f_equal (fun o => match o with Some x => x | None => d end)) in Hd.
  subst d. cbv zeta.
  cbn [DashboardData.overview DashboardData.recentBookings DashboardData.bookingTrends
       DashboardData.revenueTrends DashboardData.bookingSources
       DashboardData.bookingStatus DashboardData.revenueByRoomType
       DashboardData.roomTypePerformance DashboardData.guestTypes
       DashboardData.stayDuration DashboardData.guestSatisfaction
       DashboardData.guestDemographics DashboardData.paymentMethods
       DashboardData.topGuests DashboardData.occupancyTimeline
       OverviewMetrics.totalBookings OverviewMetrics.totalBookingsChange
       OverviewMetrics.occupancyRate OverviewMetrics.totalRevenue
       OverviewMetrics.totalRevenueChange OverviewMetrics.averageDailyRate
       OverviewMetrics.revPAR OverviewMetrics.totalGuests].
  repeat (split; [reflexivity|]).
  exists hotel. split; [reflexivity|].
  unfold bind, ret.
  destruct (floorOccupancy h hotel rooms 0%nat) as [fo k1]. cbn [snd].
  destruct (occupancyTimeline h (filteredBookings bookings from to)
              (activeRooms rooms) from to k1) as [tl k2].
  reflexivity.
Qed.

(** ** Revenue sums (C9) *)

(** C9.  A booking whose total amount is 0 is an identity for the monetary
    reductions: wherever it is added to the booking list, the revenue of
    the filtered bookings and the revenue of the previous period are what
    they are without it, and so are the [totalRevenue] and
    [totalRevenueChange] that [processGraphQLData] returns. *)
Theorem zero_amount_booking_is_identity (h : Host) (selectedHotel : option string)
  (getHotels : list Hotel.t) (rooms : list Room.t) (B1 B2 : list Booking.t)
  (b : Booking.t) (from to : Z) :
  (amount b == 0)%Q ->
  (totalRevenue (filteredBookings (B1 ++ b :: B2)%list from to)
   == totalRevenue (filteredBookings (B1 ++ B2)%list from to))%Q
  /\ (totalRevenue (previousPeriodBookings (B1 ++ b :: B2)%list from to)
      == totalRevenue (previousPeriodBookings (B1 ++ B2)%list from to))%Q
  /\ (forall d d',
        processGraphQLData h selectedHotel getHotels rooms (B1 ++ b :: B2)%list
          {| Dashboard.from := Some from; Dashboard.to := Some to |} = Some d ->
        processGraphQLData h selectedHotel getHotels rooms (B1 ++ B2)%list
          {| Dashboard.from := Some from; Dashboard.to := Some to |} = Some d' ->
        (OverviewMetrics.totalRevenue (DashboardData.overview d)
         == OverviewMetrics.totalRevenue (DashboardData.overview d'))%Q
        /\ OverviewMetrics.totalRevenueChange (DashboardData.overview d)
           = OverviewMetrics.totalRevenueChange (DashboardData.overview d')).
Proof.
  intros Hb.
  assert (Hf := totalRevenue_filter_insert
                  (fun booking =>
                     date_ge (Booking.checkInDate booking) (Some from)
                     && date_le (Booking.checkInDate booking) (Some to)) B1 B2 b Hb).
  assert (Hp := totalRevenue_filter_insert
                  (fun booking =>
                     date_ge (Booking.checkInDate booking) (previousPeriodStart from to)
                     && date_le (Booking.checkInDate booking) (previousPeriodEnd from))
                  B1 B2 b Hb).
  split; [exact Hf|]. split; [exact Hp|].
  intros d d' Hd Hd'.
  destruct (processGraphQLData_fields _ _ _ _ _ _ _ _ Hd)
    as (_ & _ & _ & _ & Hr & Hc & _).
  destruct (processGraphQLData_fields _ _ _ _ _ _ _ _ Hd')
    as (_ & _ & _ & _ & Hr' & Hc' & _).
  rewrite Hr, Hr', Hc, Hc'.
  split; [exact Hf|].
  apply Math_round_comp. apply totalRevenueChange_comp; [exact Hf | exact Hp].
Qed.

Lemma zero_amount_booking_is_identity_witness :
  let b0 := Samples.booking "101" "ada@example.org" (Some (Samples.day 20000)) None 0 in
  let b1 := Samples.booking "102" "bob@example.org" (Some (Samples.day 20000)) None 80 in
  (totalRevenue (filteredBookings ([b1] ++ b0 :: [b1])%list (Samples.day 20000) (Samples.day 20001))
   == totalRevenue (filteredBookings ([b1] ++ [b1])%list (Samples.day 20000) (Samples.day 20001)))%Q.
Proof.
  intros b0 b1.
  apply (zero_amount_booking_is_identity Samples.host None [Samples.hotel] [] [b1] [b1] b0
           (Samples.day 20000) (Samples.day 20001)).
  reflexivity.
Defined.

(** ** Occupancy rate (C1) *)

Lemma percent_nonneg (o a : Z) :
  0 <= o -> 0 < a -> (0 <= (inject_Z o / inject_Z a) * 100)%Q.
Proof.
  intros Ho Ha. apply Qmult_le_0_compat; [|discriminate].
  apply Qle_shift_div_l.
  - change 0%Q with (inject_Z 0). now rewrite <- Zlt_Qlt.
  - rewrite Qmult_0_l. change 0%Q with (inject_Z 0). now rewrite <- Zle_Qle.
Qed.

Lemma percent_le_100 (o a : Z) :
  o <= a -> 0 < a -> ((inject_Z o / inject_Z a) * 100 <= 100)%Q.
Proof.
  intros Ho Ha.
  setoid_replace 100%Q with (1 * 100)%Q at 2 by reflexivity.
  apply Qmult_le_compat_r; [|discriminate].
  apply Qle_shift_div_r.
  - change 0%Q with (inject_Z 0). now rewrite <- Zlt_Qlt.
  - rewrite Qmult_1_l. now rewrite <- Zle_Qle.
Qed.

Lemma percent_round_bounds (o a : Z) :
  0 <= o -> 0 < a ->
  0 <= Math_round ((inject_Z o / inject_Z a) * 100)
  /\ (o <= a -> Math_round ((inject_Z o / inject_Z a) * 100) <= 100).
Proof.
  intros Ho Ha. split.
  - rewrite <- Math_round_zero. apply Math_round_mono. now apply percent_nonneg.
  - intros Hle. rewrite <- (Math_round_inject_Z 100).
    apply Math_round_mono. now apply percent_le_100.
Qed.

Lemma percent_full (a : Z) : 0 < a -> Math_round ((inject_Z a / inject_Z a) * 100) = 100.
Proof.
  intros Ha. transitivity (Math_round (inject_Z 100)); [|apply Math_round_inject_Z].
  apply Math_round_comp.
  setoid_replace (inject_Z a / inject_Z a)%Q with 1%Q; [reflexivity|].
  apply Qmult_inv_r. intros H. change 0%Q with (inject_Z 0) in H.
  rewrite inject_Z_injective in H. lia.
Qed.





(** ** Filtering *)




(** Every call of the aggregation with both ends of the range and at least
    one hotel returns a dashboard. *)
Lemma processGraphQLData_returns (h : Host) (selectedHotel : option string)
  (getHotels : list Hotel.t) (rooms : list Room.t) (bookings : list Booking.t)
  (from to : Z) :
  getHotels <> [] ->
  exists d, processGraphQLData h selectedHotel getHotels rooms bookings
              {| Dashboard.from := Some from; Dashboard.to := Some to |} = Some d.
Proof.
  intros Hh. unfold processGraphQLData. cbn [Dashboard.from Dashboard.to].
  destruct (findHotel selectedHotel getHotels) as [hotel|] eqn:E; [eexists; reflexivity|].
  exfalso. unfold findHotel in E. destruct (find _ getHotels); [discriminate|].
  destruct getHotels; [congruence | discriminate].
Qed.

(** ** Room-nights, ADR and RevPAR (C4, C5) *)














(** ** The loops and their fuel *)

(** The fuel given to the floor loop never ends it early: any fuel that
    covers the remaining floors gives the same result. *)
Lemma floorOccupancy_loop_fuel (h : Host) (rooms : list Room.t) (n : Z) :
  forall (f1 f2 : nat) (i : Z) (k : nat),
    (Z.to_nat (n - i + 1) <= f1)%nat ->
    (Z.to_nat (n - i + 1) <= f2)%nat ->
    floorOccupancy_loop h rooms n f1 i k = floorOccupancy_loop h rooms n f2 i k.
Proof.
  induction f1 as [|f1 IH]; intros f2 i k H1 H2.
  - destruct f2 as [|f2]; [reflexivity|]. cbn [floorOccupancy_loop].
    destruct (Z.leb_spec i n); [lia | reflexivity].
  - destruct f2 as [|f2]; cbn [floorOccupancy_loop].
    + destruct (Z.leb_spec i n); [lia | reflexivity].
    + destruct (Z.leb_spec i n); [|reflexivity].
      unfold bind.
      match goal with
      | |- (let (_, _) := ?m in _) = _ => destruct m as [rate k1]
      end.
      rewrite (IH f2 (i + 1) k1) by lia. reflexivity.
Qed.

(** The floor series has one entry per floor. *)
Lemma floorOccupancy_loop_length (h : Host) (rooms : list Room.t) (n : Z) :
  forall (fuel : nat) (i : Z) (k : nat),
    fuel = Z.to_nat (n - i + 1) ->
    List.length (fst (floorOccupancy_loop h rooms n fuel i k)) = fuel.
Proof.
  induction fuel as [|fuel IH]; intros i k Hf; [reflexivity|].
  cbn [floorOccupancy_loop]. destruct (Z.leb_spec i n); [|lia].
  unfold bind.
  match goal with
  | |- context [let (_, _) := ?m in _] => destruct m as [rate k1]
  end.
  specialize (IH (i + 1) k1).
  destruct (floorOccupancy_loop h rooms n fuel (i + 1) k1) as [rest k2].
  simpl in IH |- *. rewrite IH by lia. reflexivity.
Qed.



(** ** Occupancy timeline (C8) *)











(** ** A range without bookings (C3) *)





Lemma Math_round_zero_over (a : Z) : Math_round ((inject_Z 0 / inject_Z a) * 100) = 0.
Proof.
  rewrite <- Math_round_zero. apply Math_round_comp.
  unfold Qdiv. now rewrite !Qmult_0_l.
Qed.






(** ** The comparison period (C2) *)

(** The number of milliseconds of the range is handed to [subDays] as a
    number of days: as soon as that many days before [from] is out of the
    range of dates, the start of the previous period is [Invalid Date]. *)
Lemma previousPeriodStart_invalid (from to : Z) :
  - maxTime <= from ->
  maxTime < (to - from) * msPerDay - from ->
  previousPeriodStart from to = None.
Proof.
  intros Hfrom H. unfold previousPeriodStart, subDays, addDays, setDate_plus, TimeClip.
  destruct (Z.eqb_spec (- (to - from)) 0) as [E|_].
  - replace (to - from) with 0 in H by lia. lia.
  - destruct (Z.leb_spec (Z.abs (from + - (to - from) * msPerDay)) maxTime); [|reflexivity].
    lia.
Qed.

(** ... and no booking at all is counted in the baseline. *)
Lemma previousPeriodBookings_invalid_start (bookings : list Booking.t) (from to : Z) :
  previousPeriodStart from to = None ->
  previousPeriodBookings bookings from to = [].
Proof.
  intros H. unfold previousPeriodBookings. rewrite H.
  induction bookings as [|b l IH]; simpl; [reflexivity|].
  destruct (Booking.checkInDate b); simpl; exact IH.
Qed.

(** When the start is a date, it lies as many days before [from] as the
    range has milliseconds. *)
Lemma previousPeriodStart_valid (from to s : Z) :
  previousPeriodStart from to = Some s -> s = from - (to - from) * msPerDay.
Proof.
  unfold previousPeriodStart, subDays, addDays, setDate_plus, TimeClip.
  destruct (Z.eqb_spec (- (to - from)) 0) as [E|_].
  - intros [= <-]. replace (to - from) with 0 by lia. lia.
  - destruct (Z.abs _ <=? maxTime); [|discriminate]. intros [= <-]. lia.
Qed.

(** Whenever the baseline count (the baseline revenue) is 0, so is the
    corresponding change. *)
Lemma change_zero_on_zero_baseline (current : Z) (revenue : Q) :
  Math_round (totalBookingsChange current 0) = 0
  /\ Math_round (totalRevenueChange revenue 0) = 0.
Proof. split; reflexivity. Qed.

(** C2, evaluated on the code.  Range: days 20000 to 20007.  A booking that
    checked in on the day before [from] lies in the week before the range,
    yet the start of the previous period is [Invalid Date], the baseline is
    empty, and both changes are 0 although the range holds two bookings
    against one before it. *)
Theorem previous_period_is_not_the_preceding_period :
  exists d,
    processGraphQLData Samples.host None [Samples.hotel] [Samples.room "101" true]
      [ Samples.booking "101" "ada@example.org" (Some (Samples.day 19999))
          (Some (Samples.day 20000)) 100;
        Samples.booking "101" "bob@example.org" (Some (Samples.day 20003))
          (Some (Samples.day 20004)) 100;
        Samples.booking "101" "cyd@example.org" (Some (Samples.day 20004))
          (Some (Samples.day 20005)) 200 ]
      (Samples.range (Samples.day 20000) (Samples.day 20007)) = Some d
    /\ checkInWithin (Samples.day 20000 - (Samples.day 20007 - Samples.day 20000))
         (Samples.day 20000 - msPerDay)
         (Samples.booking "101" "ada@example.org" (Some (Samples.day 19999))
            (Some (Samples.day 20000)) 100)
    /\ previousPeriodStart (Samples.day 20000) (Samples.day 20007) = None
    /\ previousPeriodEnd (Samples.day 20000) = Some (Samples.day 19999)
    /\ previousPeriodBookings
         [ Samples.booking "101" "ada@example.org" (Some (Samples.day 19999))
             (Some (Samples.day 20000)) 100;
           Samples.booking "101" "bob@example.org" (Some (Samples.day 20003))
             (Some (Samples.day 20004)) 100;
           Samples.booking "101" "cyd@example.org" (Some (Samples.day 20004))
             (Some (Samples.day 20005)) 200 ]
         (Samples.day 20000) (Samples.day 20007) = []
    /\ OverviewMetrics.totalBookings (DashboardData.overview d) = 2
    /\ OverviewMetrics.totalBookingsChange (DashboardData.overview d) = 0
    /\ OverviewMetrics.totalRevenueChange (DashboardData.overview d) = 0.
Proof.
  eexists. split; [vm_compute; reflexivity|]. split.
  - exists (Samples.day 19999). split; [reflexivity|]. vm_compute. split; discriminate.
  - repeat split; reflexivity.
Qed.

(** On a range of exactly one day the start is a date, some two hundred
    thousand years back, and the baseline takes in a booking of three years
    before. *)
Lemma previous_period_of_a_one_day_range :
  previousPeriodStart (Samples.day 20000) (Samples.day 20001)
  = Some (Samples.day (20000 - 86400000))
  /\ previousPeriodBookings
       [ Samples.booking "101" "ada@example.org" (Some (Samples.day 19000))
           (Some (Samples.day 19001)) 100 ]
       (Samples.day 20000) (Samples.day 20001)
     = [ Samples.booking "101" "ada@example.org" (Some (Samples.day 19000))
           (Some (Samples.day 19001)) 100 ].
Proof. split; reflexivity. Qed.

(** ** Sorting and dictionaries *)

Section Sorting.
Context {A : Type} (leb : A -> A -> bool).

Lemma insert_sorted_perm (x : A) (l : list A) :
  Permutation (insert_sorted leb x l) (x :: l).
Proof.
  induction l as [|y l IH]; simpl; [apply Permutation_refl|].
  destruct (leb x y); [apply Permutation_refl|].
  eapply perm_trans; [apply perm_skip, IH | apply perm_swap].
Qed.

Lemma Array_sort_perm (l : list A) : Permutation (Array_sort leb l) l.
Proof.
  induction l as [|x l IH]; simpl; [constructor|].
  eapply perm_trans; [apply insert_sorted_perm | now apply perm_skip].
Qed.

Hypothesis leb_total : forall a b, leb a b = true \/ leb b a = true.

Lemma insert_sorted_Sorted (x : A) (l : list A) :
  Sorted (fun a b => leb a b = true) l ->
  Sorted (fun a b => leb a b = true) (insert_sorted leb x l).
Proof.
  induction l as [|y l IH]; intros Hs; simpl.
  - repeat constructor.
  - destruct (leb x y) eqn:E.
    + constructor; [exact Hs | now constructor].
    + inversion Hs as [|? ? Hs' Hhd]; subst.
      constructor; [now apply IH|].
      destruct l as [|z l]; simpl.
      * constructor. destruct (leb_total x y); congruence.
      * destruct (leb x z); constructor.
        -- destruct (leb_total x y); congruence.
        -- now inversion Hhd.
Qed.

Lemma Array_sort_Sorted (l : list A) :
  Sorted (fun a b => leb a b = true) (Array_sort leb l).
Proof.
  induction l as [|x l IH]; simpl; [constructor | now apply insert_sorted_Sorted].
Qed.

End Sorting.



Lemma filter_partition_perm {A} (p : A -> bool) (l : list A) :
  Permutation (filter p l ++ filter (fun x => negb (p x)) l) l.
Proof.
  induction l as [|x l IH]; simpl; [constructor|].
  destruct (p x); simpl.
  - now apply perm_skip.
  - eapply perm_trans; [apply Permutation_sym, Permutation_middle|].
    now apply perm_skip.
Qed.


Section Assoc.
Context {V : Type}.





End Assoc.

(** ** Guest statistics *)





Lemma NoDup_snoc {A} (l : list A) (x : A) : NoDup l -> ~ In x l -> NoDup (l ++ [x]).
Proof.
  intros Hnd Hnin. apply (Permutation_NoDup (l := x :: l)).
  - apply Permutation_cons_append.
  - now constructor.
Qed.



(** ** Top guests (C6) *)






(** ** Group-by reductions *)

Section Tally.
Context {V : Type} (add : V -> V -> V).

Lemma addAtFirst_names (k : string) (v : V) (acc : list (ChartDataItem V)) :
  map name (addAtFirst add k v acc) = map name acc.
Proof.
  induction acc as [|it acc IH]; simpl; [reflexivity|].
  destruct (name it =? k)%string; simpl; [reflexivity | now rewrite IH].
Qed.

Lemma existsb_name_iff (k : string) (acc : list (ChartDataItem V)) :
  existsb (fun item => (name item =? k)%string) acc = true <-> In k (map name acc).
Proof.
  rewrite existsb_exists, in_map_iff.
  split; intros [it [H1 H2]]; exists it.
  - apply String.eqb_eq in H2. now split.
  - split; [exact H2 | now apply String.eqb_eq].
Qed.

Lemma chart_get_None (k : string) (acc : list (ChartDataItem V)) :
  chart_get k acc = None <-> ~ In k (map name acc).
Proof.
  induction acc as [|it acc IH]; simpl; [tauto|].
  destruct (String.eqb_spec (name it) k) as [E|E].
  - split; [discriminate | intros H; exfalso; apply H; now left].
  - rewrite IH. tauto.
Qed.

Lemma chart_get_In (acc : list (ChartDataItem V)) (it : ChartDataItem V) :
  NoDup (map name acc) -> In it acc -> chart_get (name it) acc = Some (value it).
Proof.
  induction acc as [|it0 acc IH]; simpl; intros Hnd Hin; [contradiction|].
  inversion Hnd as [|? ? Hnin Hnd']; subst.
  destruct Hin as [<- | Hin].
  - now rewrite String.eqb_refl.
  - destruct (String.eqb_spec (name it0) (name it)) as [E|E]; [|now apply IH].
    exfalso. apply Hnin. rewrite E. now apply in_map.
Qed.

Lemma chart_get_Some (k : string) (v : V) (acc : list (ChartDataItem V)) :
  chart_get k acc = Some v -> exists it, In it acc /\ name it = k /\ value it = v.
Proof.
  induction acc as [|it acc IH]; simpl; [discriminate|].
  destruct (String.eqb_spec (name it) k) as [E|E].
  - intros [= <-]. exists it. auto.
  - intros H. destruct (IH H) as [it' [H1 H2]]. exists it'. auto.
Qed.

Lemma tally_names (k : string) (v : V) (acc : list (ChartDataItem V)) :
  map name (tally add k v acc)
  = if existsb (String.eqb k) (map name acc) then map name acc
    else (map name acc ++ [k])%list.
Proof.
  unfold tally.
  assert (E : existsb (fun item => (name item =? k)%string) acc
              = existsb (String.eqb k) (map name acc)).
  { induction acc as [|it acc IH]; simpl; [reflexivity|].
    now rewrite IH, (String.eqb_sym k). }
  rewrite E. destruct (existsb (String.eqb k) (map name acc)).
  - apply addAtFirst_names.
  - now rewrite map_app.
Qed.

Lemma chart_get_addAtFirst (k k' : string) (v : V) (acc : list (ChartDataItem V)) :
  chart_get k' (addAtFirst add k v acc)
  = if string_dec k' k
    then match chart_get k acc with Some x => Some (add x v) | None => None end
    else chart_get k' acc.
Proof.
  induction acc as [|it acc IH]; simpl.
  - now destruct (string_dec k' k).
  - destruct (String.eqb_spec (name it) k) as [E|E]; simpl.
    + destruct (string_dec k' k) as [->|Hne].
      * now rewrite E, String.eqb_refl.
      * destruct (String.eqb_spec (name it) k'); [congruence | reflexivity].
    + destruct (String.eqb_spec (name it) k') as [E'|E'].
      * destruct (string_dec k' k); [congruence | reflexivity].
      * exact IH.
Qed.

Lemma chart_get_app (k : string) (acc1 acc2 : list (ChartDataItem V)) :
  chart_get k (acc1 ++ acc2)
  = match chart_get k acc1 with Some x => Some x | None => chart_get k acc2 end.
Proof.
  induction acc1 as [|it acc1 IH]; simpl; [reflexivity|].
  destruct (name it =? k)%string; [reflexivity | exact IH].
Qed.

Lemma chart_get_tally (k k' : string) (v : V) (acc : list (ChartDataItem V)) :
  chart_get k' (tally add k v acc)
  = if string_dec k' k
    then Some (match chart_get k acc with Some x => add x v | None => v end)
    else chart_get k' acc.
Proof.
  unfold tally.
  destruct (existsb (fun item => (name item =? k)%string) acc) eqn:E.
  - rewrite chart_get_addAtFirst. destruct (string_dec k' k); [|reflexivity].
    apply existsb_name_iff in E.
    destruct (chart_get k acc) eqn:G; [reflexivity|].
    apply chart_get_None in G. contradiction.
  - assert (G : chart_get k acc = None).
    { apply chart_get_None. intros H. apply existsb_name_iff in H. congruence. }
    rewrite chart_get_app. simpl. rewrite G.
    destruct (string_dec k' k) as [->|Hne].
    + now rewrite G, String.eqb_refl.
    + destruct (String.eqb_spec k k'); [congruence|].
      now destruct (chart_get k' acc).
Qed.

Context {A : Type} (key : A -> string) (val : A -> V).

Lemma groupBy_snoc (l : list A) (x : A) :
  fold_left (fun acc x => tally add (key x) (val x) acc) (l ++ [x]) []
  = tally add (key x) (val x)
      (fold_left (fun acc x => tally add (key x) (val x) acc) l []).
Proof. now rewrite fold_left_app. Qed.

Lemma sum1_snoc (vs : list V) (v : V) :
  sum1 add (vs ++ [v])
  = Some (match sum1 add vs with Some s => add s v | None => v end).
Proof.
  destruct vs as [|v0 vs]; simpl; [reflexivity|]. now rewrite fold_left_app.
Qed.

(** The item of a key holds the values of its group, added from the left. *)
Lemma groupBy_get (l : list A) (k : string) :
  chart_get k (fold_left (fun acc x => tally add (key x) (val x) acc) l [])
  = sum1 add (map val (filter (fun x => (key x =? k)%string) l)).
Proof.
  induction l as [|x l IH] using rev_ind; [reflexivity|].
  rewrite groupBy_snoc, chart_get_tally, filter_app, map_app. simpl.
  destruct (string_dec k (key x)) as [->|Hne].
  - rewrite String.eqb_refl. simpl. rewrite sum1_snoc. now rewrite IH.
  - destruct (String.eqb_spec (key x) k); [congruence|].
    simpl. now rewrite app_nil_r.
Qed.

(** The names are the keys, in the order of their first occurrence. *)
Lemma groupBy_names (l : list A) :
  map name (fold_left (fun acc x => tally add (key x) (val x) acc) l [])
  = Set_values String.eqb (map key l).
Proof.
  induction l as [|x l IH] using rev_ind; [reflexivity|].
  rewrite groupBy_snoc, tally_names, IH.
  unfold Set_values. rewrite map_app, fold_left_app. reflexivity.
Qed.

End Tally.

Lemma Set_values_spec {A} (eqb : A -> A -> bool) (l : list A) :
  (forall a b, eqb a b = true <-> a = b) ->
  NoDup (Set_values eqb l) /\ (forall x, In x (Set_values eqb l) <-> In x l).
Proof.
  intros Heq. unfold Set_values.
  induction l as [|x l IH] using rev_ind; simpl.
  - split; [constructor | tauto].
  - destruct IH as [Hnd Hin]. rewrite fold_left_app. simpl.
    destruct (existsb (eqb x) (fold_left _ l [])) eqn:E.
    + split; [exact Hnd|]. intros y. rewrite Hin, in_app_iff. simpl.
      apply existsb_exists in E. destruct E as [z [Hz Hxz]].
      apply Heq in Hxz. subst z. apply Hin in Hz.
      split; [tauto | intros [H | [<- | []]]; assumption].
    + split.
      * apply NoDup_snoc; [exact Hnd|]. intros Hx.
        assert (F : existsb (eqb x) (fold_left
                      (fun acc x0 => if existsb (eqb x0) acc then acc else (acc ++ [x0])%list)
                      l []) = true).
        { apply existsb_exists. exists x. split; [exact Hx | now apply Heq]. }
        congruence.
      * intros y. rewrite !in_app_iff, Hin. reflexivity.
Qed.

Lemma string_eqb_iff (a b : string) : String.eqb a b = true <-> a = b.
Proof. apply String.eqb_eq. Qed.

Lemma fold_left_Zadd (r : list Z) (v : Z) : fold_left Z.add r v = v + sumZ r.
Proof.
  revert v. induction r as [|x r IH]; intros v; simpl; [lia|]. rewrite IH. lia.
Qed.


Lemma sumZ_ones {A} (l : list A) : sumZ (map (fun _ => 1) l) = len l.
Proof.
  unfold len. induction l as [|x l IH]; [reflexivity|].
  cbn [map sumZ fold_right List.length]. fold (sumZ (map (fun _ : A => 1) l)).
  rewrite IH. lia.
Qed.

Lemma tally_sumZ (k : string) (v : Z) (acc : list (ChartDataItem Z)) :
  sumZ (map value (tally Z.add k v acc)) = sumZ (map value acc) + v.
Proof.
  unfold tally. destruct (existsb _ acc) eqn:E.
  - induction acc as [|it acc IH]; simpl in *; [discriminate|].
    destruct (name it =? k)%string; simpl in *.
    + unfold sumZ in *. simpl. lia.
    + unfold sumZ in *. simpl. rewrite IH by exact E. lia.
  - rewrite map_app. unfold sumZ. rewrite fold_right_app. simpl.
    induction (map value acc) as [|x r IH]; simpl; lia.
Qed.


(** Counting with [tally]: distinct names in first-occurrence order, each
    item the size of its group, and the values add up to the length. *)
Lemma countBy_spec {A} (key : A -> string) (l : list A) :
  let r := fold_left (fun acc x => tally Z.add (key x) 1 acc) l [] in
  NoDup (map name r)
  /\ map name r = Set_values String.eqb (map key l)
  /\ (forall k, In k (map name r) <-> exists x, In x l /\ key x = k)
  /\ (forall it, In it r ->
        value it = len (filter (fun x => (key x =? name it)%string) l)
        /\ 1 <= value it)
  /\ sumZ (map value r) = len l.
Proof.
  cbv zeta.
  pose proof (groupBy_names Z.add key (fun _ => 1) l) as Hnames.
  destruct (Set_values_spec String.eqb (map key l) string_eqb_iff) as [Hnd Hin].
  split; [now rewrite Hnames|]. split; [exact Hnames|]. split; [|split].
  - intros k. rewrite Hnames, Hin, in_map_iff.
    split; intros [x [H1 H2]]; exists x; auto.
  - intros it Hit.
    assert (Hnd' : NoDup (map name (fold_left
                     (fun acc x => tally Z.add (key x) 1 acc) l []))) by now rewrite Hnames.
    pose proof (chart_get_In _ it Hnd' Hit) as G.
    rewrite (groupBy_get Z.add key (fun _ => 1)) in G.
    destruct (filter (fun x => (key x =? name it)%string) l) as [|x0 fl] eqn:F;
      [discriminate|].
    simpl in G. injection G as G. rewrite fold_left_Zadd, sumZ_ones in G.
    unfold len in *. simpl. lia.
  - induction l as [|x l IH] using rev_ind; [reflexivity|].
    rewrite groupBy_snoc, tally_sumZ. unfold len. rewrite length_app. simpl.
    assert (IH' : sumZ (map value (fold_left
                    (fun acc x => tally Z.add (key x) 1 acc) l [])) = len l).
    { apply IH.
      - apply groupBy_names.
      - apply (Set_values_spec String.eqb (map key l) string_eqb_iff).
      - apply (Set_values_spec String.eqb (map key l) string_eqb_iff). }
    rewrite IH'. unfold len. lia.
Qed.

(** ** The other fields of the returned dashboard *)

Lemma processGraphQLData_room_fields (h : Host) (selectedHotel : option string)
  (getHotels : list Hotel.t) (rooms : list Room.t) (bookings : list Booking.t)
  (from to : Z) (d : DashboardData.t) :
  processGraphQLData h selectedHotel getHotels rooms bookings
    {| Dashboard.from := Some from; Dashboard.to := Some to |} = Some d ->
  DashboardData.roomTypeDistribution d = roomTypeDistribution rooms
  /\ DashboardData.roomStatus d = roomStatus rooms
  /\ exists hotel,
       findHotel selectedHotel getHotels = Some hotel
       /\ OverviewMetrics.totalRooms (DashboardData.overview d)
          = (if Hotel.roomCount hotel =? 0 then len rooms else Hotel.roomCount hotel)
       /\ DashboardData.floorOccupancy d = fst (floorOccupancy h hotel rooms 0%nat).
Proof.
  intros Hd. unfold processGraphQLData in Hd. cbn [Dashboard.from Dashboard.to] in Hd.
  destruct (findHotel selectedHotel getHotels) as [hotel|]; [|discriminate].
  apply (f_equal (fun o => match o with Some x => x | None => d end)) in Hd.
  subst d.
  cbn [DashboardData.overview DashboardData.roomTypeDistribution
       DashboardData.roomStatus DashboardData.floorOccupancy OverviewMetrics.totalRooms].
  split; [reflexivity|]. split; [reflexivity|].
  exists hotel. split; [reflexivity|]. split; [reflexivity|].
  unfold bind, ret.
  destruct (floorOccupancy h hotel rooms 0%nat) as [fo k1].
  destruct (occupancyTimeline h (filteredBookings bookings from to)
              (activeRooms rooms) from to k1) as [tl k2].
  reflexivity.
Qed.

(** ** Booking sources and booking status *)

(** X1.  The booking-source and booking-status series group the filtered
    bookings: one item per source (a missing or empty source counting as
    "Direct") and per status, in the order of first occurrence, each item
    holding the number of filtered bookings of its group, at least 1, and the
    values of each series add up to [totalBookings]. *)
Theorem bookingSources_and_bookingStatus_count_groups (h : Host)
  (selectedHotel : option string) (getHotels : list Hotel.t) (rooms : list Room.t)
  (bookings : list Booking.t) (from to : Z) (d : DashboardData.t) :
  processGraphQLData h selectedHotel getHotels rooms bookings
    {| Dashboard.from := Some from; Dashboard.to := Some to |} = Some d ->
  let filtered := DashboardData.recentBookings d in
  let source := fun b => string_or (Booking.bookingSource b) "Direct" in
  let grouped (key : Booking.t -> string) (series : list (ChartDataItem Z)) :=
    NoDup (map name series)
    /\ map name series = Set_values String.eqb (map key filtered)
    /\ (forall k, In k (map name series) <-> exists b, In b filtered /\ key b = k)
    /\ (forall it, In it series ->
          value it = len (filter (fun b => (key b =? name it)%string) filtered)
          /\ 1 <= value it)
    /\ sumZ (map value series)
       = OverviewMetrics.totalBookings (DashboardData.overview d) in
  grouped source (DashboardData.bookingSources d)
  /\ grouped Booking.bookingStatus (DashboardData.bookingStatus d).
Proof.
  intros Hd.
  destruct (processGraphQLData_fields _ _ _ _ _ _ _ _ Hd)
    as (Hfb & Htb & _ & _ & _ & _ & _ & _ & _ & _ & _ & Hbs & Hbst & _).
  cbv zeta. rewrite Hfb, Htb, Hbs, Hbst. split.
  - apply (countBy_spec (fun b => string_or (Booking.bookingSource b) "Direct")).
  - apply (countBy_spec Booking.bookingStatus).
Qed.

Lemma bookingSources_and_bookingStatus_count_groups_witness :
  exists d,
    processGraphQLData Samples.host None [Samples.hotel] [Samples.room "101" true]
      [ Samples.booking "101" "ada@example.org" (Some (Samples.day 20000))
          (Some (Samples.day 20001)) 100;
        Samples.booking "102" "bob@example.org" (Some (Samples.day 20001))
          (Some (Samples.day 20002)) 300 ]
      (Samples.range (Samples.day 20000) (Samples.day 20003)) = Some d
    /\ DashboardData.bookingSources d = [ {| name := "Direct"; value := 2 |} ]
    /\ sumZ (map value (DashboardData.bookingStatus d))
       = OverviewMetrics.totalBookings (DashboardData.overview d).
Proof.
  eexists. split; [reflexivity|]. split; [reflexivity|].
  apply (bookingSources_and_bookingStatus_count_groups Samples.host None [Samples.hotel]
           [Samples.room "101" true]
           [ Samples.booking "101" "ada@example.org" (Some (Samples.day 20000))
               (Some (Samples.day 20001)) 100;
             Samples.booking "102" "bob@example.org" (Some (Samples.day 20001))
               (Some (Samples.day 20002)) 300 ]
           (Samples.day 20000) (Samples.day 20003) _ eq_refl).
Defined.

(** ** Room types *)

Lemma sumZ_app (l1 l2 : list Z) : sumZ (l1 ++ l2) = sumZ l1 + sumZ l2.
Proof.
  unfold sumZ. induction l1 as [|x l1 IH]; simpl; [reflexivity|]. rewrite IH. lia.
Qed.

Lemma sumZ_indicator (t : string) (names : list string) :
  NoDup names ->
  sumZ (map (fun n => if (t =? n)%string then 1 else 0) names)
  = if existsb (String.eqb t) names then 1 else 0.
Proof.
  induction names as [|n names IH]; intros Hnd; [reflexivity|].
  inversion Hnd as [|? ? Hnin Hnd']; subst.
  cbn [map existsb]. change (sumZ (?x :: ?r)) with (x + sumZ r).
  rewrite (IH Hnd').
  destruct (String.eqb_spec t n) as [->|Hne]; simpl; [|reflexivity].
  destruct (existsb (String.eqb n) names) eqn:E; [|reflexivity].
  exfalso. apply existsb_exists in E. destruct E as [m [Hm Hnm]].
  apply String.eqb_eq in Hnm. subst m. contradiction.
Qed.

(** Counting the elements of a list per name, over distinct names, counts
    the elements whose key is one of the names. *)
Lemma sumZ_counts_by_name {A} (key : A -> string) (names : list string) (l : list A) :
  NoDup names ->
  sumZ (map (fun n => len (filter (fun x => (key x =? n)%string) l)) names)
  = len (filter (fun x => existsb (String.eqb (key x)) names) l).
Proof.
  intros Hnd. induction l as [|x l IH]; cbn [filter].
  - unfold len. cbn [List.length Z.of_nat]. induction names; [reflexivity|].
    cbn [map]. change (sumZ (?x :: ?r)) with (x + sumZ r).
    inversion Hnd; subst. rewrite IHnames by assumption. reflexivity.
  - transitivity
      (sumZ (map (fun n => if (key x =? n)%string then 1 else 0) names)
       + sumZ (map (fun n => len (filter (fun x => (key x =? n)%string) l)) names)).
    + clear IH Hnd. induction names as [|n names IHn]; [reflexivity|].
      cbn [map filter]. change (sumZ (?x :: ?r)) with (x + sumZ r).
      rewrite IHn.
      destruct (key x =? n)%string; unfold len; cbn [List.length];
        rewrite ?Nat2Z.inj_succ; ring.
    + rewrite IH, (sumZ_indicator _ _ Hnd).
      destruct (existsb (String.eqb (key x)) names); unfold len; cbn [List.length];
        rewrite ?Nat2Z.inj_succ; ring.
Qed.

(** X2.  The room-type distribution has one item per room type of the room
    list, in the order of first occurrence, holding the number of rooms of
    that type, and its values add up to the number of rooms.  The room-type
    performance has the same names in the same order, each with the number
    of filtered bookings of that room type; its values add up to the number
    of filtered bookings whose room type is the type of some room. *)
Theorem roomType_distribution_and_performance (h : Host)
  (selectedHotel : option string) (getHotels : list Hotel.t) (rooms : list Room.t)
  (bookings : list Booking.t) (from to : Z) (d : DashboardData.t) :
  processGraphQLData h selectedHotel getHotels rooms bookings
    {| Dashboard.from := Some from; Dashboard.to := Some to |} = Some d ->
  let filtered := DashboardData.recentBookings d in
  let dist := DashboardData.roomTypeDistribution d in
  let perf := DashboardData.roomTypePerformance d in
  (NoDup (map name dist)
   /\ map name dist = Set_values String.eqb (map Room.roomType rooms)
   /\ (forall it, In it dist ->
         value it = len (filter (fun r => (Room.roomType r =? name it)%string) rooms)
         /\ 1 <= value it)
   /\ sumZ (map value dist) = len rooms)
  /\ (map name perf = map name dist
      /\ (forall it, In it perf ->
            value it
            = len (filter (fun b => (Booking.roomType b =? name it)%string) filtered))
      /\ sumZ (map value perf)
         = len (filter (fun b => existsb (fun r => (Booking.roomType b =? Room.roomType r)%string)
                                    rooms) filtered)
      /\ sumZ (map value perf)
         <= OverviewMetrics.totalBookings (DashboardData.overview d)).
Proof.
  intros Hd.
  destruct (processGraphQLData_fields _ _ _ _ _ _ _ _ Hd)
    as (Hfb & Htb & F). do 12 (destruct F as (_ & F)). destruct F as (Hperf & _).
  destruct (processGraphQLData_room_fields _ _ _ _ _ _ _ _ Hd) as (Hdist & _).
  cbv zeta. rewrite Hfb, Htb, Hperf, Hdist.
  set (fb := filteredBookings bookings from to).
  destruct (countBy_spec Room.roomType rooms) as (Hnd & Hnames & _ & Hval & Hsum).
  cbv zeta in Hnd, Hnames, Hval, Hsum. fold (roomTypeDistribution rooms) in *.
  split; [repeat split; auto; now apply Hval|].
  assert (Hpn : map name (roomTypePerformance (roomTypeDistribution rooms) fb)
                = map name (roomTypeDistribution rooms)).
  { unfold roomTypePerformance. rewrite map_map. reflexivity. }
  assert (Hps : sumZ (map value (roomTypePerformance (roomTypeDistribution rooms) fb))
                = len (filter (fun b => existsb (fun r => (Booking.roomType b
                                                          =? Room.roomType r)%string) rooms)
                         fb)).
  { unfold roomTypePerformance. rewrite map_map. cbn [value].
    rewrite <- (map_map name (fun n => len (filter (fun b => (Booking.roomType b =? n)%string) fb))).
    rewrite (sumZ_counts_by_name Booking.roomType _ fb Hnd).
    f_equal. apply filter_ext. intros b.
    destruct (existsb (String.eqb (Booking.roomType b)) (map name (roomTypeDistribution rooms)))
      eqn:E.
    - symmetry. apply existsb_exists. apply existsb_exists in E.
      destruct E as [n [Hn Hbn]]. rewrite Hnames in Hn.
      apply (proj1 (proj2 (Set_values_spec String.eqb _ string_eqb_iff) n)) in Hn.
      apply in_map_iff in Hn. destruct Hn as [r [<- Hr]]. now exists r.
    - symmetry. apply not_true_is_false. intros E'. apply existsb_exists in E'.
      destruct E' as [r [Hr Hbr]].
      assert (F' : existsb (String.eqb (Booking.roomType b))
                     (map name (roomTypeDistribution rooms)) = true); [|congruence].
      apply existsb_exists. exists (Room.roomType r). split; [|exact Hbr].
      rewrite Hnames.
      apply (proj2 (proj2 (Set_values_spec String.eqb _ string_eqb_iff) _)).
      now apply in_map. }
  split; [exact Hpn|]. split; [|split; [exact Hps|]].
  - intros it Hit. unfold roomTypePerformance in Hit. apply in_map_iff in Hit.
    destruct Hit as [t [<- _]]. reflexivity.
  - rewrite Hps. unfold len. apply inj_le. apply filter_length_le.
Qed.

Lemma roomType_distribution_and_performance_witness :
  exists d,
    processGraphQLData Samples.host None [Samples.hotel]
      [Samples.room "101" true; Samples.room "102" false]
      [ Samples.booking "101" "ada@example.org" (Some (Samples.day 20000))
          (Some (Samples.day 20001)) 100 ]
      (Samples.range (Samples.day 20000) (Samples.day 20003)) = Some d
    /\ DashboardData.roomTypeDistribution d = [ {| name := "DELUXE"; value := 2 |} ]
    /\ sumZ (map value (DashboardData.roomTypeDistribution d)) = 2.
Proof.
  eexists. split; [reflexivity|]. split; [reflexivity|].
  apply (roomType_distribution_and_performance Samples.host None [Samples.hotel]
           [Samples.room "101" true; Samples.room "102" false]
           [ Samples.booking "101" "ada@example.org" (Some (Samples.day 20000))
               (Some (Samples.day 20001)) 100 ]
           (Samples.day 20000) (Samples.day 20003) _ eq_refl).
Defined.

(** ** Revenue by room type *)



(** ** Dictionaries keyed by a day number *)

Section AssocZ.
Context {V : Type}.

Lemma assocZ_get_set_same (k : Z) (v : V) (o : list (Z * V)) :
  assoc_get Z.eqb k (assoc_set Z.eqb k v o) = Some v.
Proof.
  induction o as [|[k' v'] o IH]; simpl.
  - now rewrite Z.eqb_refl.
  - destruct (Z.eqb k' k) eqn:E; simpl; rewrite E; [reflexivity | exact IH].
Qed.

Lemma assocZ_get_set_other (k k' : Z) (v : V) (o : list (Z * V)) :
  k' <> k ->
  assoc_get Z.eqb k' (assoc_set Z.eqb k v o) = assoc_get Z.eqb k' o.
Proof.
  intros Hne. induction o as [|[k0 v0] o IH]; simpl.
  - destruct (Z.eqb_spec k k'); [congruence | reflexivity].
  - destruct (Z.eqb_spec k0 k) as [->|Hk]; simpl.
    + destruct (Z.eqb_spec k k'); [congruence | reflexivity].
    + destruct (Z.eqb_spec k0 k'); [reflexivity | exact IH].
Qed.

Lemma assocZ_set_twice (k : Z) (v0 v : V) (o : list (Z * V)) :
  assoc_set Z.eqb k v (assoc_set Z.eqb k v0 o) = assoc_set Z.eqb k v o.
Proof.
  induction o as [|[k0 w] o IH]; simpl.
  - now rewrite Z.eqb_refl.
  - destruct (Z.eqb k0 k) eqn:E; simpl; rewrite E; [reflexivity | now rewrite IH].
Qed.

Lemma assocZ_get_None (k : Z) (o : list (Z * V)) :
  assoc_get Z.eqb k o = None <-> ~ In k (map fst o).
Proof.
  induction o as [|[k0 v0] o IH]; simpl; [tauto|].
  destruct (Z.eqb_spec k0 k) as [->|Hk].
  - split; [discriminate | intros H; exfalso; apply H; now left].
  - rewrite IH. tauto.
Qed.

Lemma assocZ_set_keys (k : Z) (v : V) (o : list (Z * V)) :
  map fst (assoc_set Z.eqb k v o)
  = match assoc_get Z.eqb k o with
    | Some _ => map fst o
    | None => (map fst o ++ [k])%list
    end.
Proof.
  induction o as [|[k0 v0] o IH]; simpl; [reflexivity|].
  destruct (Z.eqb_spec k0 k) as [->|Hk]; simpl; [reflexivity|].
  rewrite IH. now destruct (assoc_get Z.eqb k o).
Qed.

Lemma assocZ_get_In (k : Z) (v : V) (o : list (Z * V)) :
  NoDup (map fst o) -> In (k, v) o -> assoc_get Z.eqb k o = Some v.
Proof.
  induction o as [|[k0 v0] o IH]; simpl; intros Hnd Hin; [contradiction|].
  inversion Hnd as [|? ? Hnin Hnd']; subst.
  destruct Hin as [[= -> ->] | Hin].
  - now rewrite Z.eqb_refl.
  - destruct (Z.eqb_spec k0 k) as [->|Hk]; [|now apply IH].
    exfalso. apply Hnin. apply in_map_iff. now exists (k, v).
Qed.



End AssocZ.




(** ** Daily trends *)







Lemma sorted_by_Z_key {A} (key : A -> Z) (l : list A) :
  StronglySorted (fun a b => key a <= key b) (Array_sort (fun a b => key a <=? key b) l).
Proof.
  apply Sorted_StronglySorted.
  - intros a b c. lia.
  - assert (Htot : forall a b, (key a <=? key b) = true \/ (key b <=? key a) = true).
    { intros a b. rewrite !Z.leb_le. lia. }
    pose proof (Array_sort_Sorted (fun a b => key a <=? key b) Htot l) as H.
    induction H as [|a s Hs IH Hhd]; constructor; [exact IH|].
    destruct Hhd as [|b s' Hab]; constructor. now apply Z.leb_le.
Qed.



(** ** Guest types and guest count *)

Lemma Set_size_bounds (l : list string) :
  0 <= Set_size l <= len l /\ (l <> [] -> 1 <= Set_size l).
Proof.
  unfold Set_size, len. split.
  - split; [lia|]. apply inj_le.
    apply NoDup_incl_length; [apply NoDup_nodup|].
    intros x Hx. now apply nodup_In in Hx.
  - intros Hne. destruct l as [|x l]; [congruence|].
    assert (Hin : In x (nodup string_dec (x :: l))) by (apply nodup_In; now left).
    destruct (nodup string_dec (x :: l)); [destruct Hin | simpl; lia].
Qed.

(** X5.  The guest-type series is the pair "New", "Returning": "New" is the
    number of distinct guest emails of the filtered bookings, "Returning"
    the number of remaining filtered bookings; neither is negative and
    together they are [totalBookings]. *)
Theorem guestTypes_split_totalBookings (h : Host)
  (selectedHotel : option string) (getHotels : list Hotel.t) (rooms : list Room.t)
  (bookings : list Booking.t) (from to : Z) (d : DashboardData.t) :
  processGraphQLData h selectedHotel getHotels rooms bookings
    {| Dashboard.from := Some from; Dashboard.to := Some to |} = Some d ->
  let emails := map (fun b => Guest.email (Booking.guest b)) (DashboardData.recentBookings d) in
  let total := OverviewMetrics.totalBookings (DashboardData.overview d) in
  exists newGuests returningGuests,
    DashboardData.guestTypes d
    = [ {| name := "New"; value := newGuests |};
        {| name := "Returning"; value := returningGuests |} ]
    /\ newGuests = len (nodup string_dec emails)
    /\ newGuests + returningGuests = total
    /\ 0 <= newGuests /\ 0 <= returningGuests
    /\ (0 < total -> 1 <= newGuests).
Proof.
  intros Hd.
  destruct (processGraphQLData_fields _ _ _ _ _ _ _ _ Hd) as (Hfb & Htb & F).
  do 13 (destruct F as (_ & F)). destruct F as (Hgt & _).
  cbv zeta. rewrite Hfb, Htb, Hgt. set (fb := filteredBookings bookings from to).
  unfold guestTypes.
  set (emails := map (fun b => Guest.email (Booking.guest b)) fb).
  destruct (Set_size_bounds emails) as [[Hlo Hhi] Hpos].
  assert (Hlen : len emails = len fb) by (unfold len, emails; now rewrite length_map).
  exists (Set_size emails).
  exists (if 0 <? len emails - Set_size emails then len emails - Set_size emails else 0).
  split; [reflexivity|]. split; [reflexivity|].
  assert (Hone : 0 < len fb -> 1 <= Set_size emails).
  { intros Hp. apply Hpos. intros E. rewrite E in Hlen. unfold len in *.
    simpl in Hlen. lia. }
  destruct (Z.ltb_spec 0 (len emails - Set_size emails)); repeat split;
    try lia; try exact Hone.
Qed.

Lemma guestTypes_split_totalBookings_witness :
  exists d,
    processGraphQLData Samples.host None [Samples.hotel] [Samples.room "101" true]
      [ Samples.booking "101" "ada@example.org" (Some (Samples.day 20000))
          (Some (Samples.day 20001)) 100;
        Samples.booking "102" "ada@example.org" (Some (Samples.day 20001))
          (Some (Samples.day 20002)) 300 ]
      (Samples.range (Samples.day 20000) (Samples.day 20003)) = Some d
    /\ DashboardData.guestTypes d
       = [ {| name := "New"; value := 1 |}; {| name := "Returning"; value := 1 |} ].
Proof.
  eexists. split; [reflexivity|].
  destruct (guestTypes_split_totalBookings Samples.host None [Samples.hotel]
              [Samples.room "101" true]
              [ Samples.booking "101" "ada@example.org" (Some (Samples.day 20000))
                  (Some (Samples.day 20001)) 100;
                Samples.booking "102" "ada@example.org" (Some (Samples.day 20001))
                  (Some (Samples.day 20002)) 300 ]
              (Samples.day 20000) (Samples.day 20003) _ eq_refl)
    as (n & r & H & Hn & _).
  rewrite H. injection H as <- <-. reflexivity.
Defined.

Lemma guestsOf_at_least_one (b : Booking.t) :
  (forall n, Booking.numberOfGuests b = Some n -> 0 <= n) -> 1 <= guestsOf b.
Proof.
  unfold guestsOf, Number_orZ. intros H.
  destruct (Booking.numberOfGuests b) as [n|]; [|lia].
  specialize (H n eq_refl). destruct (Z.eqb_spec n 0); lia.
Qed.

(** X6.  The guest total is the sum over the filtered bookings of their
    guest numbers, a missing or zero number counting as one guest; when no
    filtered booking has a negative number, there are at least as many
    guests as bookings. *)
Theorem totalGuests_counts_one_by_default (h : Host)
  (selectedHotel : option string) (getHotels : list Hotel.t) (rooms : list Room.t)
  (bookings : list Booking.t) (from to : Z) (d : DashboardData.t) :
  processGraphQLData h selectedHotel getHotels rooms bookings
    {| Dashboard.from := Some from; Dashboard.to := Some to |} = Some d ->
  let filtered := DashboardData.recentBookings d in
  let ov := DashboardData.overview d in
  OverviewMetrics.totalGuests ov = sumZ (map guestsOf filtered)
  /\ (forall b, guestsOf b
                = match Booking.numberOfGuests b with
                  | Some 0 | None => 1
                  | Some n => n
                  end)
  /\ ((forall b n, In b filtered -> Booking.numberOfGuests b = Some n -> 0 <= n) ->
      OverviewMetrics.totalBookings ov <= OverviewMetrics.totalGuests ov).
Proof.
  intros Hd.
  destruct (processGraphQLData_fields _ _ _ _ _ _ _ _ Hd)
    as (Hfb & Htb & _ & _ & _ & _ & _ & _ & Htg & _).
  cbv zeta. rewrite Hfb, Htb, Htg. set (fb := filteredBookings bookings from to).
  assert (Hsum : totalGuests fb = sumZ (map guestsOf fb)).
  { unfold totalGuests. rewrite (fold_left_Zplus_acc guestsOf). lia. }
  split; [exact Hsum|]. split.
  - intros b. unfold guestsOf, Number_orZ.
    destruct (Booking.numberOfGuests b) as [[|p|p]|]; reflexivity.
  - intros Hnn. rewrite Hsum. clear Hsum. clearbody fb. unfold len.
    induction fb as [|b fb IH]; [simpl; lia|].
    cbn [map List.length]. change (sumZ (?x :: ?r)) with (x + sumZ r).
    assert (1 <= guestsOf b).
    { apply (guestsOf_at_least_one b). intros n Hn.
      apply (Hnn b n); [now left | exact Hn]. }
    assert (Z.of_nat (List.length fb) <= sumZ (map guestsOf fb)).
    { apply IH. intros b' n Hb' Hn. apply (Hnn b' n); [now right | exact Hn]. }
    lia.
Qed.

Lemma totalGuests_counts_one_by_default_witness :
  exists d,
    processGraphQLData Samples.host None [Samples.hotel] [Samples.room "101" true]
      [ Samples.booking "101" "ada@example.org" (Some (Samples.day 20000))
          (Some (Samples.day 20001)) 100 ]
      (Samples.range (Samples.day 20000) (Samples.day 20003)) = Some d
    /\ OverviewMetrics.totalBookings (DashboardData.overview d)
       <= OverviewMetrics.totalGuests (DashboardData.overview d).
Proof.
  eexists. split; [reflexivity|].
  apply (totalGuests_counts_one_by_default Samples.host None [Samples.hotel]
           [Samples.room "101" true]
           [ Samples.booking "101" "ada@example.org" (Some (Samples.day 20000))
               (Some (Samples.day 20001)) 100 ]
           (Samples.day 20000) (Samples.day 20003) _ eq_refl).
  intros b n [<- | []] [= <-]. lia.
Defined.

(** ** Room status *)

Lemma filter_length_all {A} (p : A -> bool) (l : list A) :
  List.length (filter p l) = List.length l <-> forall x, In x l -> p x = true.
Proof.
  induction l as [|x l IH]; simpl; [tauto|].
  pose proof (filter_length_le p l) as Hle.
  destruct (p x) eqn:E; simpl.
  - split.
    + intros H y [<- | Hy]; [exact E|]. apply IH; [lia | exact Hy].
    + intros H. f_equal. apply IH. intros y Hy. apply H. now right.
  - split; [lia|]. intros H. specialize (H x (or_introl eq_refl)). congruence.
Qed.

(** X7.  The room-status series has the four items "Available", "Occupied",
    "Maintenance" and "Cleaning", each with the number of rooms in the
    corresponding status; the four numbers add up to at most the number of
    rooms, and to exactly that number if and only if every room is in one of
    the four statuses. *)
Theorem roomStatus_counts_four_statuses (h : Host)
  (selectedHotel : option string) (getHotels : list Hotel.t) (rooms : list Room.t)
  (bookings : list Booking.t) (from to : Z) (d : DashboardData.t) :
  processGraphQLData h selectedHotel getHotels rooms bookings
    {| Dashboard.from := Some from; Dashboard.to := Some to |} = Some d ->
  let count s := len (filter (fun r => (Room.status r =? s)%string) rooms) in
  let known r :=
    In (Room.status r) ["AVAILABLE"; "OCCUPIED"; "MAINTENANCE"; "CLEANING"] in
  DashboardData.roomStatus d
  = [ {| name := "Available"; value := count "AVAILABLE" |};
      {| name := "Occupied"; value := count "OCCUPIED" |};
      {| name := "Maintenance"; value := count "MAINTENANCE" |};
      {| name := "Cleaning"; value := count "CLEANING" |} ]
  /\ sumZ (map value (DashboardData.roomStatus d)) <= len rooms
  /\ (sumZ (map value (DashboardData.roomStatus d)) = len rooms
      <-> forall r, In r rooms -> known r).
Proof.
  intros Hd.
  destruct (processGraphQLData_room_fields _ _ _ _ _ _ _ _ Hd) as (_ & Hrs & _).
  cbv zeta. rewrite Hrs. split; [reflexivity|].
  set (names := ["AVAILABLE"; "OCCUPIED"; "MAINTENANCE"; "CLEANING"]).
  assert (Hnd : NoDup names).
  { unfold names. repeat constructor; simpl; intuition discriminate. }
  assert (Hsum : sumZ (map value (roomStatus rooms))
                 = len (filter (fun r => existsb (String.eqb (Room.status r)) names) rooms)).
  { rewrite <- (sumZ_counts_by_name Room.status names rooms Hnd).
    unfold roomStatus, countStatus, names. cbn [map value]. reflexivity. }
  rewrite Hsum. split.
  - unfold len. apply inj_le. apply filter_length_le.
  - unfold len. rewrite Nat2Z.inj_iff, filter_length_all.
    split; intros H r Hr; specialize (H r Hr).
    + apply existsb_exists in H. destruct H as [s [Hs E]].
      apply String.eqb_eq in E. now rewrite E.
    + apply existsb_exists. exists (Room.status r). split; [exact H | apply String.eqb_refl].
Qed.

Lemma roomStatus_counts_four_statuses_witness :
  exists d,
    processGraphQLData Samples.host None [Samples.hotel]
      [Samples.room "101" true; Samples.room "102" false] []
      (Samples.range (Samples.day 20000) (Samples.day 20003)) = Some d
    /\ sumZ (map value (DashboardData.roomStatus d)) = 2.
Proof.
  eexists. split; [reflexivity|].
  destruct (roomStatus_counts_four_statuses Samples.host None [Samples.hotel]
              [Samples.room "101" true; Samples.room "102" false] []
              (Samples.day 20000) (Samples.day 20003) _ eq_refl) as (_ & _ & H).
  apply H. intros r [<- | [<- | []]]; simpl; tauto.
Defined.

(** ** The range and its baseline *)



(** X9.  On a range that starts at a valid date and is longer than
    200,000,000 milliseconds (2 days, 7 hours and some), the start of the
    previous period is not a date, the baseline is empty, and both
    percentage changes are 0, whatever the bookings. *)
Theorem changes_are_zero_on_long_ranges (h : Host)
  (selectedHotel : option string) (getHotels : list Hotel.t) (rooms : list Room.t)
  (bookings : list Booking.t) (from to : Z) (d : DashboardData.t) :
  processGraphQLData h selectedHotel getHotels rooms bookings
    {| Dashboard.from := Some from; Dashboard.to := Some to |} = Some d ->
  - maxTime <= from <= maxTime ->
  200000000 < to - from ->
  previousPeriodBookings bookings from to = []
  /\ OverviewMetrics.totalBookingsChange (DashboardData.overview d) = 0
  /\ OverviewMetrics.totalRevenueChange (DashboardData.overview d) = 0.
Proof.
  intros Hd Hfrom Hlen.
  assert (Hprev : previousPeriodBookings bookings from to = []).
  { apply previousPeriodBookings_invalid_start.
    apply previousPeriodStart_invalid; [lia|].
    unfold maxTime, msPerDay in *. lia. }
  destruct (processGraphQLData_fields _ _ _ _ _ _ _ _ Hd)
    as (_ & _ & Hbc & _ & _ & Hrc & _).
  rewrite Hprev in Hbc, Hrc. split; [exact Hprev|]. split.
  - rewrite Hbc. reflexivity.
  - rewrite Hrc. reflexivity.
Qed.

Lemma changes_are_zero_on_long_ranges_witness :
  exists d,
    processGraphQLData Samples.host None [Samples.hotel] [Samples.room "101" true]
      [ Samples.booking "101" "ada@example.org" (Some (Samples.day 19998))
          (Some (Samples.day 20000)) 50;
        Samples.booking "101" "bob@example.org" (Some (Samples.day 20001))
          (Some (Samples.day 20002)) 70 ]
      (Samples.range (Samples.day 20000) (Samples.day 20003)) = Some d
    /\ OverviewMetrics.totalBookingsChange (DashboardData.overview d) = 0.
Proof.
  eexists. split; [reflexivity|].
  apply (changes_are_zero_on_long_ranges Samples.host None [Samples.hotel]
           [Samples.room "101" true]
           [ Samples.booking "101" "ada@example.org" (Some (Samples.day 19998))
               (Some (Samples.day 20000)) 50;
             Samples.booking "101" "bob@example.org" (Some (Samples.day 20001))
               (Some (Samples.day 20002)) 70 ]
           (Samples.day 20000) (Samples.day 20003) _ eq_refl).
  - vm_compute. split; discriminate.
  - vm_compute. reflexivity.
Defined.

(** ** Failure of the aggregation *)

(** X10.  The aggregation throws exactly when the date range lacks one of
    its ends or the response holds no hotel; the hotel it reads is the
    first one with the selected id, and the first hotel of the response
    when no hotel is selected or none has the selected id. *)
Theorem processGraphQLData_throws_iff (h : Host) (selectedHotel : option string)
  (getHotels : list Hotel.t) (rooms : list Room.t) (bookings : list Booking.t)
  (dateRange : DateRange) :
  (processGraphQLData h selectedHotel getHotels rooms bookings dateRange = None
   <-> Dashboard.from dateRange = None \/ Dashboard.to dateRange = None \/ getHotels = [])
  /\ (forall hotel, findHotel selectedHotel getHotels = Some hotel ->
        In hotel getHotels
        /\ ((Some (Hotel.id hotel) = selectedHotel
             /\ exists before after,
                  getHotels = (before ++ hotel :: after)%list
                  /\ forall x, In x before -> Some (Hotel.id x) <> selectedHotel)
            \/ ((forall x, In x getHotels -> Some (Hotel.id x) <> selectedHotel)
                /\ hd_error getHotels = Some hotel))).
Proof.
  split.
  - unfold processGraphQLData.
    destruct (Dashboard.from dateRange) as [from|], (Dashboard.to dateRange) as [to|];
      try (split; [intros _; tauto | reflexivity]).
    destruct (findHotel selectedHotel getHotels) as [hotel|] eqn:E.
    + split; [discriminate|]. intros [H | [H | H]]; try discriminate.
      subst getHotels. discriminate E.
    + split; [|reflexivity]. intros _. right. right.
      unfold findHotel in E. destruct (find _ getHotels); [discriminate|].
      destruct getHotels; [reflexivity | discriminate].
  - intros hotel Hf. unfold findHotel in Hf.
    set (p := fun x : Hotel.t => match selectedHotel with
                                 | Some i => (Hotel.id x =? i)%string
                                 | None => false
                                 end) in *.
    assert (Hp : forall x, p x = true <-> Some (Hotel.id x) = selectedHotel).
    { intros x. unfold p. destruct selectedHotel as [i|].
      - rewrite String.eqb_eq. split; congruence.
      - split; discriminate. }
    destruct (find p getHotels) as [x|] eqn:E.
    + injection Hf as ->. pose proof (find_some _ _ E) as [Hin Hpx].
      split; [exact Hin|]. left. split; [now apply Hp|].
      clear Hin. induction getHotels as [|y l IH]; [discriminate|].
      simpl in E. destruct (p y) eqn:Ey.
      * injection E as ->. exists [], l. split; [reflexivity | intros x []].
      * destruct (IH E) as (before & after & -> & Hb).
        exists (y :: before), after. split; [reflexivity|].
        intros x [<- | Hx]; [|now apply Hb].
        intros Hy. apply Hp in Hy. congruence.
    + split; [destruct getHotels; [discriminate | injection Hf as ->; now left]|].
      right. split; [|exact Hf].
      intros x Hx Hsel. apply Hp in Hsel.
      pose proof (find_none _ _ E x Hx). congruence.
Qed.

Lemma processGraphQLData_throws_iff_witness :
  processGraphQLData Samples.host (Some "hotel-1") [] [] []
    (Samples.range (Samples.day 20000) (Samples.day 20003)) = None
  /\ processGraphQLData Samples.host (Some "hotel-1") [Samples.hotel] [] []
       {| Dashboard.from := Some (Samples.day 20000); Dashboard.to := None |} = None.
Proof.
  split.
  - apply (processGraphQLData_throws_iff Samples.host (Some "hotel-1") [] [] []
             (Samples.range (Samples.day 20000) (Samples.day 20003))).
    right. now right.
  - apply (processGraphQLData_throws_iff Samples.host (Some "hotel-1") [Samples.hotel] [] []
             {| Dashboard.from := Some (Samples.day 20000); Dashboard.to := None |}).
    right. now left.
Defined.

(** ** The date range of the page *)

(** X11.  The date range of the page keeps both of its ends: after any
    sequence of picker changes applied to a range with both ends, the range
    has both ends, and it is the initial range or one of the complete ranges
    the picker supplied; so the aggregation does not throw on it when the
    response has a hotel. *)
Theorem dateRange_stays_complete (h : Host) (selectedHotel : option string)
  (getHotels : list Hotel.t) (rooms : list Room.t) (bookings : list Booking.t)
  (dateRange : DateRange) (changes : list (option DateRange)) :
  Dashboard.from dateRange <> None ->
  Dashboard.to dateRange <> None ->
  let final := fold_left DashboardPage.handleDateRangeChange changes dateRange in
  Dashboard.from final <> None
  /\ Dashboard.to final <> None
  /\ (final = dateRange \/ In (Some final) changes)
  /\ (getHotels <> [] ->
      processGraphQLData h selectedHotel getHotels rooms bookings final <> None).
Proof.
  intros Hf Ht. cbv zeta.
  assert (H : Dashboard.from (fold_left DashboardPage.handleDateRangeChange changes dateRange)
              <> None
              /\ Dashboard.to (fold_left DashboardPage.handleDateRangeChange changes dateRange)
                 <> None
              /\ (fold_left DashboardPage.handleDateRangeChange changes dateRange = dateRange
                  \/ In (Some (fold_left DashboardPage.handleDateRangeChange changes dateRange))
                        changes)).
  { induction changes as [|c changes IH] using rev_ind; [simpl; tauto|].
    destruct IH as (IHf & IHt & IHo). rewrite fold_left_app. cbn [fold_left].
    unfold DashboardPage.handleDateRangeChange at 1 3 5 7.
    destruct c as [r|].
    - destruct (Dashboard.from r) eqn:Er, (Dashboard.to r) eqn:Eo.
      + split; [congruence|]. split; [congruence|]. right.
        apply in_or_app. right. now left.
      + split; [exact IHf|]. split; [exact IHt|].
        destruct IHo as [-> | Hin]; [now left | right; apply in_or_app; now left].
      + split; [exact IHf|]. split; [exact IHt|].
        destruct IHo as [-> | Hin]; [now left | right; apply in_or_app; now left].
      + split; [exact IHf|]. split; [exact IHt|].
        destruct IHo as [-> | Hin]; [now left | right; apply in_or_app; now left].
    - split; [exact IHf|]. split; [exact IHt|].
      destruct IHo as [-> | Hin]; [now left | right; apply in_or_app; now left]. }
  destruct H as (H1 & H2 & H3). repeat split; auto.
  intros Hh Hnone. apply processGraphQLData_throws_iff in Hnone. tauto.
Qed.

Lemma dateRange_stays_complete_witness :
  fold_left DashboardPage.handleDateRangeChange
    [ Some {| Dashboard.from := Some (Samples.day 20010); Dashboard.to := None |};
      None ]
    (Samples.range (Samples.day 20000) (Samples.day 20003))
  = Samples.range (Samples.day 20000) (Samples.day 20003)
  /\ Dashboard.to
       (fold_left DashboardPage.handleDateRangeChange
          [ Some {| Dashboard.from := Some (Samples.day 20010); Dashboard.to := None |};
            None ]
          (Samples.range (Samples.day 20000) (Samples.day 20003))) <> None.
Proof.
  split; [reflexivity|].
  apply (dateRange_stays_complete Samples.host None [Samples.hotel] [] []
           (Samples.range (Samples.day 20000) (Samples.day 20003))
           [ Some {| Dashboard.from := Some (Samples.day 20010); Dashboard.to := None |};
             None ]); discriminate.
Defined.

(** ** Floor occupancy *)






(** ** The occupancy timeline without active rooms *)



(** ** More on the access guard *)

(** No path is on both lists. *)
Lemma protected_and_auth_disjoint (pathname : string) :
  Middleware.listed Middleware.protectedPaths pathname ->
  Middleware.listed Middleware.authRoutes pathname -> False.
Proof.
  intros [p [Hp Ep]] [q [Hq Eq]].
  unfold Middleware.protectedPaths in Hp. unfold Middleware.authRoutes in Hq.
  simpl in Hp, Hq.
  repeat (destruct Hp as [<- | Hp]); try contradiction;
    repeat (destruct Hq as [<- | Hq]); try contradiction;
    destruct Ep as [-> | [r ->]]; destruct Eq as [E | [s E]];
    simpl in E; discriminate E.
Qed.

(** X14.  A redirect of the guard never leads to another redirect: the
    target of a redirect, requested with the same token state, is let
    through.  The redirect is to [/login] with the path as [callbackUrl]
    when there is no token, and to [/dashboard] when there is one. *)
Theorem middleware_redirects_do_not_chain (JWT : Type) (pathname : string)
  (token : option JWT) (target : string) (searchParams : list (string * string)) :
  Middleware.middleware pathname token = Middleware.redirect target searchParams ->
  Middleware.middleware target token = Middleware.next
  /\ ((token = None /\ target = "/login" /\ searchParams = [("callbackUrl", pathname)])
      \/ (token <> None /\ target = "/dashboard" /\ searchParams = [])).
Proof.
  unfold Middleware.middleware at 1.
  destruct (existsb _ Middleware.protectedPaths); destruct (existsb _ Middleware.authRoutes);
    destruct token as [tk|]; simpl; intros H; try discriminate H;
    injection H as <- <-; (split; [reflexivity|]);
    try (left; repeat split; reflexivity);
    right; repeat split; discriminate.
Qed.

Lemma middleware_redirects_do_not_chain_witness :
  Middleware.middleware (JWT := unit) "/login" None = Middleware.next.
Proof.
  apply (middleware_redirects_do_not_chain unit "/settings/profile" None "/login"
           [("callbackUrl", "/settings/profile")]).
  reflexivity.
Defined.

(** X15.  The guard never turns a visitor without token away from a login,
    signup or forgot-password page, and never turns a signed-in user away
    from a protected page: the two path lists have no path in common. *)
Theorem middleware_lets_each_side_in (JWT : Type) (pathname : string) (token : JWT) :
  (Middleware.listed Middleware.authRoutes pathname ->
   Middleware.middleware (JWT := JWT) pathname None = Middleware.next)
  /\ (Middleware.listed Middleware.protectedPaths pathname ->
      Middleware.middleware pathname (Some token) = Middleware.next)
  /\ ~ (Middleware.listed Middleware.protectedPaths pathname
        /\ Middleware.listed Middleware.authRoutes pathname).
Proof.
  split; [|split].
  - intros Ha. unfold Middleware.middleware.
    destruct (existsb _ Middleware.protectedPaths) eqn:Ep.
    + apply listed_iff in Ep.
      destruct (protected_and_auth_disjoint pathname Ep Ha).
    + simpl. now rewrite andb_false_r.
  - intros Hp. unfold Middleware.middleware.
    rewrite andb_false_r.
    destruct (existsb _ Middleware.authRoutes) eqn:Ea; [|reflexivity].
    apply listed_iff in Ea.
    destruct (protected_and_auth_disjoint pathname Hp Ea).
  - intros [Hp Ha]. exact (protected_and_auth_disjoint pathname Hp Ha).
Qed.

Lemma middleware_lets_each_side_in_witness :
  Middleware.middleware (JWT := unit) "/signup/steps" None = Middleware.next
  /\ Middleware.middleware "/hotels/settings" (Some tt) = Middleware.next.
Proof.
  split.
  - apply (middleware_lets_each_side_in unit "/signup/steps" tt).
    exists "/signup". split; [simpl; tauto|]. right. now exists "steps".
  - apply (middleware_lets_each_side_in unit "/hotels/settings" tt).
    exists "/hotels/settings". split; [simpl; tauto|]. now left.
Defined.

(** ** The price summary of the booking panel *)








(** ** The room-charge dialog *)

(** X18.  The room-charge dialog sends a charge exactly when the description
    is given and not empty and the amount entered parses to a number above
    0; the charge then carries that description and amount, the charge type
    "room_service" and the notes entered (empty when none).  A cancelled or
    empty description ends the dialog silently. *)
Theorem room_charge_needs_description_and_positive_amount
  (parseFloat : string -> option Q)
  (descriptionAnswer amountAnswer notesAnswer : option string)
  (description : string) (amount : Q) (chargeType notes : string) :
  (BookingPanel.onAddRoomCharge parseFloat descriptionAnswer amountAnswer notesAnswer
   = BookingPanel.handleAddRoomCharge description amount chargeType notes
   <-> descriptionAnswer = Some description
       /\ description <> ""
       /\ parseFloat (string_or amountAnswer "0") = Some amount
       /\ (0 < amount)%Q
       /\ chargeType = "room_service"
       /\ notes = string_or notesAnswer "")
  /\ (descriptionAnswer = None \/ descriptionAnswer = Some "" ->
      BookingPanel.onAddRoomCharge parseFloat descriptionAnswer amountAnswer notesAnswer
      = BookingPanel.nothing).
Proof.
  unfold BookingPanel.onAddRoomCharge. split.
  - destruct descriptionAnswer as [dsc|].
    + destruct (String.eqb_spec dsc "") as [->|Hne].
      * split; [discriminate|]. intros ([= <-] & H & _). congruence.
      * destruct (parseFloat (string_or amountAnswer "0")) as [a|].
        -- destruct (Qle_bool a 0) eqn:E.
           ++ split; [discriminate|]. intros (_ & _ & [= <-] & Hpos & _).
              apply Qle_bool_iff in E. exfalso. exact (Qlt_not_le _ _ Hpos E).
           ++ split.
              ** intros [= <- <- <- <-]. repeat split; auto.
                 apply Qnot_le_lt. intros Hle. apply Qle_bool_iff in Hle. congruence.
              ** intros ([= <-] & _ & [= <-] & _ & -> & ->). reflexivity.
        -- split; [discriminate|]. intros (_ & _ & H & _). discriminate H.
    + split; [discriminate|]. intros (H & _). discriminate H.
  - intros [-> | ->]; reflexivity.
Qed.

Lemma room_charge_needs_description_and_positive_amount_witness :
  BookingPanel.onAddRoomCharge (fun s => if (s =? "12.5")%string then Some (25 # 2)%Q else None)
    (Some "Room Service") (Some "12.5") None
  = BookingPanel.handleAddRoomCharge "Room Service" (25 # 2)%Q "room_service" "".
Proof.
  apply (room_charge_needs_description_and_positive_amount
           (fun s => if (s =? "12.5")%string then Some (25 # 2)%Q else None)
           (Some "Room Service") (Some "12.5") None "Room Service" (25 # 2)%Q
           "room_service" "").
  repeat split; try reflexivity. discriminate.
Defined.

(** ** The booking calendar page *)


Lemma Number_orZ_nonzero (x : option Z) (d : Z) : d <> 0 -> Number_orZ x d <> 0.
Proof.
  intros Hd. unfold Number_orZ. destruct x as [n|]; [|exact Hd].
  destruct (Z.eqb_spec n 0); [exact Hd | assumption].
Qed.



Lemma filter_split_length {A} (p : A -> bool) (l : list A) :
  (List.length (filter p l) + List.length (filter (fun x => negb (p x)) l)
   = List.length l)%nat.
Proof.
  induction l as [|x l IH]; [reflexivity|]. simpl.
  destruct (p x); simpl; lia.
Qed.

(** A filter keeps the keys of a list distinct. *)
Lemma filter_keeps_distinct_keys {A K} (key : A -> K) (keep : A -> bool) (xs : list A)
  (Hnd : NoDup (map key xs)) :
  NoDup (map key (filter keep xs)).
Proof.
  induction xs as [|x xs IH]; cbn [filter map] in *; [constructor|].
  apply NoDup_cons_iff in Hnd. destruct Hnd as [Hnin Hnd].
  destruct (keep x); cbn [map]; [|now apply IH].
  apply NoDup_cons; [|now apply IH].
  intros Hin. apply Hnin. apply in_map_iff in Hin. destruct Hin as [y [Hy Hyin]].
  apply filter_In in Hyin. apply in_map_iff. exists y. tauto.
Qed.

(** X20.  The "new bookings" toast of a refresh is shown only when the
    previous list was not empty and the new list is longer, and then counts
    the bookings of the new list whose id was not in the previous one, at
    least 1; when the ids of the new list are distinct, that toast is always
    shown on such a refresh and counts at least the growth of the list. *)
Theorem newBookingsToast_counts_new_ids (current bookingsData : list BookingAnalytics.Booking) :
  let fresh :=
    filter (fun b => negb (existsb (String.eqb (BookingAnalytics.id b))
                             (map BookingAnalytics.id current))) bookingsData in
  (forall description,
     BookingAnalytics.newBookingsToast current bookingsData = Some description ->
     0 < len current < len bookingsData
     /\ 1 <= len fresh
     /\ description
        = string_of_Z (len fresh) ++ " new booking"
          ++ (if len fresh =? 1 then "" else "s") ++ " added.")
  /\ (NoDup (map BookingAnalytics.id bookingsData) ->
      0 < len current < len bookingsData ->
      len bookingsData - len current <= len fresh
      /\ BookingAnalytics.newBookingsToast current bookingsData <> None).
Proof.
  cbv zeta. unfold BookingAnalytics.newBookingsToast.
  set (fresh := filter (fun b => negb (existsb (String.eqb (BookingAnalytics.id b))
                                        (map BookingAnalytics.id current))) bookingsData).
  split.
  - intros description.
    destruct (Z.ltb_spec 0 (len current)); [|discriminate].
    destruct (Z.ltb_spec (len current) (len bookingsData)); [|discriminate].
    cbn [andb]. destruct (Z.ltb_spec 0 (len fresh)); [|discriminate].
    intros [= <-]. repeat split; try lia.
  - intros Hnd [H0 H1].
    set (known := fun b => existsb (String.eqb (BookingAnalytics.id b))
                             (map BookingAnalytics.id current)).
    assert (Hold : (List.length (filter known bookingsData) <= List.length current)%nat).
    { rewrite <- (length_map BookingAnalytics.id (filter known bookingsData)).
      rewrite <- (length_map BookingAnalytics.id current).
      apply NoDup_incl_length; [now apply filter_keeps_distinct_keys|].
      intros i Hi. apply in_map_iff in Hi. destruct Hi as [b [<- Hb]].
      apply filter_In in Hb. destruct Hb as [_ Hk]. unfold known in Hk.
      apply existsb_exists in Hk. destruct Hk as [j [Hj E]].
      apply String.eqb_eq in E. now rewrite E. }
    pose proof (filter_split_length known bookingsData) as Hsplit.
    fold fresh in Hsplit.
    assert (Hfresh : len bookingsData - len current <= len fresh).
    { unfold len. unfold fresh, known in *. lia. }
    split; [exact Hfresh|].
    destruct (Z.ltb_spec 0 (len current)); [|lia].
    destruct (Z.ltb_spec (len current) (len bookingsData)); [|lia].
    cbn [andb]. destruct (Z.ltb_spec 0 (len fresh)); [discriminate | lia].
Qed.

Lemma newBookingsToast_counts_new_ids_witness :
  let booking (i : string) :=
    {| BookingAnalytics.id := i; BookingAnalytics.roomId := None;
       BookingAnalytics.roomType := "DELUXE"; BookingAnalytics.bookingStatus := "CONFIRMED";
       BookingAnalytics.checkInDate := Some 0; BookingAnalytics.checkOutDate := Some 86400000;
       BookingAnalytics.roomNumber := "101"; BookingAnalytics.floor := 1;
       BookingAnalytics.paymentStatus := "PENDING"; BookingAnalytics.totalAmount := 0%Q;
       BookingAnalytics.numberOfGuests := 1 |} in
  len [booking "a"; booking "b"] - len [booking "a"] <= 1
  /\ BookingAnalytics.newBookingsToast [booking "a"] [booking "a"; booking "b"] <> None.
Proof.
  intros booking.
  apply (proj2 (newBookingsToast_counts_new_ids [booking "a"] [booking "a"; booking "b"])).
  - repeat constructor; simpl; intuition discriminate.
  - split; reflexivity.
Defined.

(** X21.  The room ids for which room details are fetched are distinct, and
    they are exactly the non-empty room ids of the bookings that have no
    cached details. *)
Theorem roomIdsToFetch_distinct_uncached (roomDetails : list (string * BookingAnalytics.Room))
  (bookingsData : list BookingAnalytics.Booking) :
  NoDup (BookingAnalytics.roomIdsToFetch roomDetails bookingsData)
  /\ forall i,
       In i (BookingAnalytics.roomIdsToFetch roomDetails bookingsData)
       <-> i <> ""
           /\ (exists b, In b bookingsData /\ BookingAnalytics.roomId b = Some i)
           /\ assoc_get String.eqb i roomDetails = None.
Proof.
  unfold BookingAnalytics.roomIdsToFetch.
  match goal with
  | |- NoDup (Set_values _ ?l) /\ _ =>
      destruct (Set_values_spec String.eqb l string_eqb_iff) as [Hnd Hin]
  end.
  split; [exact Hnd|]. intros i. rewrite Hin, in_flat_map. split.
  - intros [b [Hb Hi]].
    destruct (BookingAnalytics.roomId b) as [j|] eqn:Ej; [|destruct Hi].
    destruct (String.eqb_spec j ""); [destruct Hi|].
    destruct (assoc_get String.eqb j roomDetails) eqn:Ec; [destruct Hi|].
    destruct Hi as [<- | []]. split; [assumption|]. split; [|exact Ec].
    now exists b.
  - intros (Hne & [b [Hb Hi]] & Hc). exists b. split; [exact Hb|].
    rewrite Hi. destruct (String.eqb_spec i ""); [congruence|].
    rewrite Hc. now left.
Qed.

Lemma filter_filter_and {A} (p q : A -> bool) (l : list A) :
  filter p (filter q l) = filter (fun x => q x && p x) l.
Proof.
  induction l as [|x l IH]; [reflexivity|]. simpl.
  destruct (q x); simpl; [|exact IH]. destruct (p x); now rewrite IH.
Qed.

(** X22.  The calendar filters keep exactly the bookings that meet every
    filter that is not set to "all" (the floor is compared as text); with
    the three filters on "all" every booking is kept; applying the three
    filters at once is applying them one after the other, and applying them
    twice changes nothing. *)
Theorem calendar_filters (selectedFloor selectedRoomType selectedStatus : string)
  (bookings : list BookingAnalytics.Booking) :
  (forall b,
     In b (BookingAnalytics.filteredBookings selectedFloor selectedRoomType selectedStatus
             bookings)
     <-> In b bookings
         /\ (selectedFloor = "all"
             \/ string_of_Z (BookingAnalytics.floor b) = selectedFloor)
         /\ (selectedRoomType = "all" \/ BookingAnalytics.roomType b = selectedRoomType)
         /\ (selectedStatus = "all" \/ BookingAnalytics.bookingStatus b = selectedStatus))
  /\ BookingAnalytics.filteredBookings "all" "all" "all" bookings = bookings
  /\ BookingAnalytics.filteredBookings selectedFloor selectedRoomType selectedStatus bookings
     = BookingAnalytics.filteredBookings selectedFloor "all" "all"
         (BookingAnalytics.filteredBookings "all" selectedRoomType "all"
            (BookingAnalytics.filteredBookings "all" "all" selectedStatus bookings))
  /\ BookingAnalytics.filteredBookings selectedFloor selectedRoomType selectedStatus
       (BookingAnalytics.filteredBookings selectedFloor selectedRoomType selectedStatus
          bookings)
     = BookingAnalytics.filteredBookings selectedFloor selectedRoomType selectedStatus
         bookings.
Proof.
  unfold BookingAnalytics.filteredBookings. split; [|split; [|split]].
  - intros b. rewrite filter_In. unfold BookingAnalytics.passesFilters.
    destruct (String.eqb_spec selectedFloor "all");
      destruct (String.eqb_spec (string_of_Z (BookingAnalytics.floor b)) selectedFloor);
      destruct (String.eqb_spec selectedRoomType "all");
      destruct (String.eqb_spec (BookingAnalytics.roomType b) selectedRoomType);
      destruct (String.eqb_spec selectedStatus "all");
      destruct (String.eqb_spec (BookingAnalytics.bookingStatus b) selectedStatus);
      simpl; intuition congruence.
  - induction bookings as [|b l IH]; [reflexivity|].
    simpl. now rewrite IH.
  - rewrite !filter_filter_and. apply filter_ext. intros b.
    unfold BookingAnalytics.passesFilters. simpl.
    destruct (selectedFloor =? "all")%string,
             (string_of_Z (BookingAnalytics.floor b) =? selectedFloor)%string,
             (selectedRoomType =? "all")%string,
             (BookingAnalytics.roomType b =? selectedRoomType)%string,
             (selectedStatus =? "all")%string,
             (BookingAnalytics.bookingStatus b =? selectedStatus)%string; reflexivity.
  - rewrite filter_filter_and. apply filter_ext. intros b.
    destruct (BookingAnalytics.passesFilters _ _ _ b); reflexivity.
Qed.

Lemma calendar_filters_witness :
  BookingAnalytics.filteredBookings "2" "DELUXE" "all"
    [ {| BookingAnalytics.id := "b1"; BookingAnalytics.roomId := None;
         BookingAnalytics.roomType := "DELUXE";
         BookingAnalytics.bookingStatus := "CONFIRMED";
         BookingAnalytics.checkInDate := Some 0;
         BookingAnalytics.checkOutDate := Some msPerDay;
         BookingAnalytics.roomNumber := "204"; BookingAnalytics.floor := 2;
         BookingAnalytics.paymentStatus := "PENDING";
         BookingAnalytics.totalAmount := 100%Q;
         BookingAnalytics.numberOfGuests := 2 |} ]
  = BookingAnalytics.filteredBookings "2" "all" "all"
      (BookingAnalytics.filteredBookings "all" "DELUXE" "all"
         (BookingAnalytics.filteredBookings "all" "all" "all"
            [ {| BookingAnalytics.id := "b1"; BookingAnalytics.roomId := None;
                 BookingAnalytics.roomType := "DELUXE";
                 BookingAnalytics.bookingStatus := "CONFIRMED";
                 BookingAnalytics.checkInDate := Some 0;
                 BookingAnalytics.checkOutDate := Some msPerDay;
                 BookingAnalytics.roomNumber := "204"; BookingAnalytics.floor := 2;
                 BookingAnalytics.paymentStatus := "PENDING";
                 BookingAnalytics.totalAmount := 100%Q;
                 BookingAnalytics.numberOfGuests := 2 |} ])).
Proof.
  apply (calendar_filters "2" "DELUXE" "all").
Defined.

(** ** Daily occupancy of the calendar *)

Lemma filter_sublist_length {A} (p q : A -> bool) (l : list A) :
  (List.length (filter p (filter q l)) <= List.length (filter p l))%nat.
Proof.
  induction l as [|x l IH]; [apply Nat.le_refl|]. simpl.
  destruct (q x); simpl; destruct (p x); simpl; lia.
Qed.

(** X23.  For every day of the calendar, the occupancy divides by the number
    of rooms, or by 20 when no room is loaded, never by 0; the rooms
    available and the bookings that cover the day add up to that number; the
    percentage is not negative, is 0 when no booking covers the day, and is
    at most 100 when the covering bookings are no more than the rooms; and a
    filter never raises the percentage of a day nor lowers its available
    rooms. *)
Theorem calendar_occupancy_of_a_day (rooms : list BookingAnalytics.Room)
  (bookings : list BookingAnalytics.Booking)
  (selectedFloor selectedRoomType selectedStatus : string) (day : Z) :
  let covering l :=
    filter (fun b => date_ge (Some day) (BookingAnalytics.checkInDate b)
                     && date_le (Some day) (BookingAnalytics.checkOutDate b)) l in
  let totalRooms := if 0 <? len rooms then len rooms else 20 in
  let all := BookingAnalytics.occupancyOn rooms bookings day in
  let shown :=
    BookingAnalytics.occupancyOn rooms
      (BookingAnalytics.filteredBookings selectedFloor selectedRoomType selectedStatus
         bookings) day in
  1 <= totalRooms
  /\ (rooms = [] -> totalRooms = 20)
  /\ BookingAnalytics.available all + len (covering bookings) = totalRooms
  /\ 0 <= BookingAnalytics.percentage all
  /\ (covering bookings = [] ->
      BookingAnalytics.percentage all = 0 /\ BookingAnalytics.available all = totalRooms)
  /\ (len (covering bookings) <= totalRooms ->
      BookingAnalytics.percentage all <= 100 /\ 0 <= BookingAnalytics.available all)
  /\ BookingAnalytics.percentage shown <= BookingAnalytics.percentage all
  /\ BookingAnalytics.available all <= BookingAnalytics.available shown.
Proof.
  cbv zeta. unfold BookingAnalytics.occupancyOn.
  cbn [BookingAnalytics.percentage BookingAnalytics.available].
  set (cov := fun b => date_ge (Some day) (BookingAnalytics.checkInDate b)
                       && date_le (Some day) (BookingAnalytics.checkOutDate b)).
  set (T := if 0 <? len rooms then len rooms else 20).
  assert (HT : 1 <= T).
  { unfold T. destruct (Z.ltb_spec 0 (len rooms)); lia. }
  assert (Hlen : len (filter cov (BookingAnalytics.filteredBookings selectedFloor
                                    selectedRoomType selectedStatus bookings))
                 <= len (filter cov bookings)).
  { unfold len, BookingAnalytics.filteredBookings. apply inj_le.
    apply filter_sublist_length. }
  assert (HT0 : 0 < T) by lia.
  destruct (percent_round_bounds (len (filter cov bookings)) T
              (len_nonneg (filter cov bookings)) HT0) as [Hlo Hhi].
  split; [exact HT|]. split; [|split; [|split; [|split; [|split; [|split]]]]].
  - intros ->. reflexivity.
  - lia.
  - exact Hlo.
  - intros E. rewrite E. split; [apply Math_round_zero_over | unfold len; simpl; lia].
  - intros Hle. split; [now apply Hhi | lia].
  - apply Math_round_mono. apply Qmult_le_compat_r; [|discriminate].
    unfold Qdiv. apply Qmult_le_compat_r.
    + now rewrite <- Zle_Qle.
    + apply Qinv_le_0_compat. change 0%Q with (inject_Z 0). rewrite <- Zle_Qle. lia.
  - lia.
Qed.

Lemma calendar_occupancy_of_a_day_witness :
  BookingAnalytics.percentage (BookingAnalytics.occupancyOn [] [] 0) = 0
  /\ BookingAnalytics.available (BookingAnalytics.occupancyOn [] [] 0) = 20.
Proof.
  destruct (calendar_occupancy_of_a_day [] [] "all" "all" "all" 0)
    as (_ & _ & _ & _ & H & _).
  apply H. reflexivity.
Defined.

(** ** Floors and room types of the calendar filters *)

Lemma StronglySorted_le_NoDup_lt (l : list Z) :
  StronglySorted Z.le l -> NoDup l -> StronglySorted Z.lt l.
Proof.
  induction 1 as [|x l Hs IH Hall]; intros Hnd; constructor.
  - apply IH. now inversion Hnd.
  - inversion Hnd as [|? ? Hnin _]; subst.
    rewrite Forall_forall in *. intros y Hy. specialize (Hall y Hy).
    assert (x <> y) by (intros ->; contradiction). lia.
Qed.

Lemma Z_eqb_iff (a b : Z) : Z.eqb a b = true <-> a = b.
Proof. apply Z.eqb_eq. Qed.

(** X24.  The floor filter offers the floors of the stored rooms in
    strictly ascending order, each once and never floor 0 (a room without
    floor is stored on floor 1); the room-type filter offers each room type
    of the rooms once, in the order of first occurrence. *)
Theorem calendar_filter_choices (rooms : list BookingAnalytics.Room) :
  StronglySorted Z.lt (BookingAnalytics.floors rooms)
  /\ (forall f, In f (BookingAnalytics.floors rooms)
                <-> exists r, In r rooms /\ BookingAnalytics.storedFloor r = f)
  /\ ~ In 0 (BookingAnalytics.floors rooms)
  /\ NoDup (BookingAnalytics.roomTypes rooms)
  /\ (forall t, In t (BookingAnalytics.roomTypes rooms)
                <-> exists r, In r rooms /\ BookingAnalytics.room_roomType r = t).
Proof.
  unfold BookingAnalytics.floors, BookingAnalytics.roomTypes.
  destruct (Set_values_spec Z.eqb (map BookingAnalytics.storedFloor rooms) Z_eqb_iff)
    as [Hnd Hin].
  destruct (Set_values_spec String.eqb (map BookingAnalytics.room_roomType rooms)
              string_eqb_iff) as [Hnd' Hin'].
  set (vals := Set_values Z.eqb (map BookingAnalytics.storedFloor rooms)) in *.
  pose proof (Array_sort_perm (fun a b => a <=? b) vals) as Hperm.
  assert (Hmem : forall f, In f (Array_sort (fun a b => a <=? b) vals)
                           <-> exists r, In r rooms /\ BookingAnalytics.storedFloor r = f).
  { intros f. split.
    - intros Hf. apply (Permutation_in _ Hperm) in Hf. apply Hin in Hf.
      apply in_map_iff in Hf. destruct Hf as [r [H1 H2]]. now exists r.
    - intros [r [Hr <-]]. apply (Permutation_in _ (Permutation_sym Hperm)).
      apply Hin. now apply in_map. }
  split; [|split; [exact Hmem|split; [|split]]].
  - apply StronglySorted_le_NoDup_lt.
    + apply (sorted_by_Z_key (fun x => x)).
    + apply (Permutation_NoDup (Permutation_sym Hperm) Hnd).
  - intros H0. apply Hmem in H0. destruct H0 as [r [_ Hr]].
    unfold BookingAnalytics.storedFloor in Hr.
    now apply (Number_orZ_nonzero (BookingAnalytics.room_floor r) 1).
  - exact Hnd'.
  - intros t. rewrite Hin', in_map_iff. split; intros [r [H1 H2]]; exists r; auto.
Qed.

(** ** The room grid *)

Lemma roomsByFloor_snoc (l : list RoomGrid.Room) (room : RoomGrid.Room) :
  RoomGrid.roomsByFloor (l ++ [room])
  = assoc_set Z.eqb (RoomGrid.floor room)
      (match assoc_get Z.eqb (RoomGrid.floor room) (RoomGrid.roomsByFloor l) with
       | Some floorRooms => floorRooms
       | None => []
       end ++ [room])%list
      (RoomGrid.roomsByFloor l).
Proof.
  unfold RoomGrid.roomsByFloor. rewrite fold_left_app. cbn [fold_left].
  unfold RoomGrid.addRoom at 1. cbv zeta.
  destruct (assoc_get Z.eqb (RoomGrid.floor room) (fold_left RoomGrid.addRoom l []))
    as [rs|] eqn:G.
  - rewrite G. reflexivity.
  - rewrite assocZ_get_set_same. apply assocZ_set_twice.
Qed.

(** The array of a floor holds the rooms of that floor, in the order of the
    room list; floors without room have no array. *)
Lemma roomsByFloor_get (l : list RoomGrid.Room) (f : Z) :
  assoc_get Z.eqb f (RoomGrid.roomsByFloor l)
  = match filter (fun r => RoomGrid.floor r =? f) l with
    | [] => None
    | rs => Some rs
    end.
Proof.
  induction l as [|room l IH] using rev_ind; [reflexivity|].
  rewrite roomsByFloor_snoc, filter_app. cbn [filter].
  destruct (Z.eqb_spec (RoomGrid.floor room) f) as [E|E].
  - rewrite E, assocZ_get_set_same. rewrite IH.
    destruct (filter (fun r => RoomGrid.floor r =? f) l); reflexivity.
  - rewrite assocZ_get_set_other by congruence. now rewrite app_nil_r.
Qed.

Lemma roomsByFloor_NoDup (l : list RoomGrid.Room) :
  NoDup (map fst (RoomGrid.roomsByFloor l)).
Proof.
  induction l as [|room l IH] using rev_ind; [constructor|].
  rewrite roomsByFloor_snoc, assocZ_set_keys.
  destruct (assoc_get Z.eqb (RoomGrid.floor room) (RoomGrid.roomsByFloor l)) eqn:G;
    [exact IH|].
  apply NoDup_snoc; [exact IH | now apply assocZ_get_None].
Qed.

Lemma concat_assoc_set (k : Z) (room : RoomGrid.Room) (o : list (Z * list RoomGrid.Room)) :
  Permutation
    (List.concat (map snd (assoc_set Z.eqb k
                        (match assoc_get Z.eqb k o with Some rs => rs | None => [] end
                         ++ [room])%list o)))
    (room :: List.concat (map snd o)).
Proof.
  induction o as [|[k0 rs0] o IH]; cbn [assoc_set assoc_get].
  - simpl. apply Permutation_refl.
  - destruct (Z.eqb k0 k); cbn [map snd List.concat].
    + rewrite <- app_assoc. cbn [app].
      apply Permutation_sym. apply Permutation_middle.
    + eapply perm_trans; [apply Permutation_app_head, IH|].
      apply Permutation_sym. apply Permutation_middle.
Qed.

Lemma roomsByFloor_concat (l : list RoomGrid.Room) :
  Permutation (List.concat (map snd (RoomGrid.roomsByFloor l))) l.
Proof.
  induction l as [|room l IH] using rev_ind; [constructor|].
  rewrite roomsByFloor_snoc.
  eapply perm_trans; [apply concat_assoc_set|].
  eapply perm_trans; [apply perm_skip, IH|]. apply Permutation_cons_append.
Qed.

Lemma Object_entries_perm (o : list (Z * list RoomGrid.Room)) :
  Permutation (RoomGrid.Object_entries o) o.
Proof.
  unfold RoomGrid.Object_entries.
  eapply perm_trans;
    [|apply (filter_partition_perm (fun e => RoomGrid.is_index_floor (fst e)))].
  apply Permutation_app_tail. apply Array_sort_perm.
Qed.

Lemma concat_perm {A} (l1 l2 : list (list A)) :
  Permutation l1 l2 -> Permutation (List.concat l1) (List.concat l2).
Proof.
  induction 1; simpl.
  - constructor.
  - now apply Permutation_app_head.
  - rewrite !app_assoc. apply Permutation_app_tail. apply Permutation_app_comm.
  - eapply perm_trans; eassumption.
Qed.

Lemma concat_map_perm {A} (f : list A -> list A) (l : list (list A)) :
  (forall x, Permutation (f x) x) -> Permutation (List.concat (map f l)) (List.concat l).
Proof.
  intros Hf. induction l as [|x l IH]; simpl; [constructor|].
  now apply Permutation_app.
Qed.

Lemma sorted_descending_keys {A} (l : list (Z * A)) :
  StronglySorted (fun a b => b <= a)
    (map fst (Array_sort (fun a b : Z * A => fst b <=? fst a) l)).
Proof.
  assert (H : StronglySorted (fun a b : Z * A => fst b <= fst a)
                (Array_sort (fun a b : Z * A => fst b <=? fst a) l)).
  { apply Sorted_StronglySorted; [intros a b c; lia|].
    assert (Htot : forall a b : Z * A,
               (fst b <=? fst a) = true \/ (fst a <=? fst b) = true).
    { intros a b. rewrite !Z.leb_le. lia. }
    pose proof (Array_sort_Sorted (fun a b : Z * A => fst b <=? fst a) Htot l) as H.
    induction H as [|a s Hs IH Hhd]; constructor; [exact IH|].
    destruct Hhd as [|b s' Hab]; constructor. now apply Z.leb_le. }
  induction H as [|e s Hs IH Hall]; simpl; constructor; [exact IH|].
  apply Forall_map. exact Hall.
Qed.

(** X25.  The room grid shows one section per floor that has a room, the
    floors in strictly descending order; the section of a floor holds the
    rooms of that floor and no others, each once; so every room of the list
    is shown exactly once. *)
Theorem room_grid_sections (localeCompare : string -> string -> Z)
  (rooms : list RoomGrid.Room) :
  let sections := RoomGrid.floorSections localeCompare rooms in
  StronglySorted (fun a b => b < a) (map fst sections)
  /\ (forall f rs, In (f, rs) sections ->
        rs <> []
        /\ Permutation rs (filter (fun r => RoomGrid.floor r =? f) rooms))
  /\ (forall r, In r rooms -> In (RoomGrid.floor r) (map fst sections))
  /\ Permutation (List.concat (map snd sections)) rooms.
Proof.
  cbv zeta. unfold RoomGrid.floorSections.
  set (byFloor := RoomGrid.roomsByFloor rooms).
  set (entries := RoomGrid.Object_entries byFloor).
  set (sorted := Array_sort (fun a b : Z * list RoomGrid.Room => fst b <=? fst a) entries).
  set (inner := fun rs : list RoomGrid.Room =>
                  Array_sort (fun a b => localeCompare (RoomGrid.roomNumber a)
                                           (RoomGrid.roomNumber b) <=? 0) rs).
  assert (Hperm : Permutation sorted byFloor).
  { eapply perm_trans; [apply Array_sort_perm | apply Object_entries_perm]. }
  assert (Hkeys : map fst (map (fun entry => (fst entry, inner (snd entry))) sorted)
                  = map fst sorted).
  { rewrite map_map. reflexivity. }
  pose proof (roomsByFloor_NoDup rooms) as Hnd. fold byFloor in Hnd.
  split; [|split; [|split]].
  - rewrite Hkeys.
    assert (Hs : StronglySorted (fun a b => b <= a) (map fst sorted)).
    { apply sorted_descending_keys. }
    assert (Hnd' : NoDup (map fst sorted)).
    { apply (Permutation_NoDup (l := map fst byFloor)); [|exact Hnd].
      apply Permutation_sym, Permutation_map, Hperm. }
    clear - Hs Hnd'. induction Hs as [|x l Hs IH Hall]; constructor.
    + apply IH. now inversion Hnd'.
    + inversion Hnd' as [|? ? Hnin _]; subst.
      rewrite Forall_forall in *. intros y Hy. specialize (Hall y Hy).
      assert (x <> y) by (intros ->; contradiction). lia.
  - intros f rs Hin. apply in_map_iff in Hin. destruct Hin as [[f' rs'] [E Hin]].
    cbn [fst snd] in E. injection E as <- <-.
    apply (Permutation_in _ Hperm) in Hin.
    pose proof (assocZ_get_In _ _ _ Hnd Hin) as G.
    unfold byFloor in G. rewrite roomsByFloor_get in G.
    destruct (filter (fun r => RoomGrid.floor r =? f') rooms) as [|r0 fr] eqn:F;
      [discriminate|].
    injection G as <-. split.
    + intros E. pose proof (Array_sort_perm (fun a b => localeCompare (RoomGrid.roomNumber a)
                                               (RoomGrid.roomNumber b) <=? 0) (r0 :: fr)) as P.
      unfold inner in E. rewrite E in P. apply Permutation_nil in P. discriminate.
    + apply Array_sort_perm.
  - intros r Hr. rewrite Hkeys.
    apply (Permutation_in _ (Permutation_map fst (Permutation_sym Hperm))).
    destruct (in_dec Z.eq_dec (RoomGrid.floor r) (map fst byFloor)) as [|Hn]; [assumption|].
    apply assocZ_get_None in Hn. unfold byFloor in Hn. rewrite roomsByFloor_get in Hn.
    assert (Hin : In r (filter (fun x => RoomGrid.floor x =? RoomGrid.floor r) rooms)).
    { apply filter_In. split; [exact Hr | apply Z.eqb_refl]. }
    destruct (filter (fun x => RoomGrid.floor x =? RoomGrid.floor r) rooms);
      [destruct Hin | discriminate].
  - rewrite map_map. cbn [snd].
    rewrite <- (map_map snd inner).
    eapply perm_trans; [apply concat_map_perm; intros x; apply Array_sort_perm|].
    eapply perm_trans; [apply concat_perm, Permutation_map, Hperm|].
    apply roomsByFloor_concat.
Qed.

Lemma room_grid_sections_witness :
  map fst
    (RoomGrid.floorSections (fun a b => if (a =? b)%string then 0 else 1)
       [ {| RoomGrid.id := "a"; RoomGrid.roomNumber := "101";
            RoomGrid.status := "AVAILABLE"; RoomGrid.floor := 1 |};
         {| RoomGrid.id := "b"; RoomGrid.roomNumber := "301";
            RoomGrid.status := "OCCUPIED"; RoomGrid.floor := 3 |};
         {| RoomGrid.id := "c"; RoomGrid.roomNumber := "102";
            RoomGrid.status := "AVAILABLE"; RoomGrid.floor := 1 |} ])
  = [3; 1]
  /\ In 3 (map fst
             (RoomGrid.floorSections (fun a b => if (a =? b)%string then 0 else 1)
                [ {| RoomGrid.id := "a"; RoomGrid.roomNumber := "101";
                     RoomGrid.status := "AVAILABLE"; RoomGrid.floor := 1 |};
                  {| RoomGrid.id := "b"; RoomGrid.roomNumber := "301";
                     RoomGrid.status := "OCCUPIED"; RoomGrid.floor := 3 |};
                  {| RoomGrid.id := "c"; RoomGrid.roomNumber := "102";
                     RoomGrid.status := "AVAILABLE"; RoomGrid.floor := 1 |} ])).
Proof.
  split; [reflexivity|].
  destruct (room_grid_sections (fun a b => if (a =? b)%string then 0 else 1)
              [ {| RoomGrid.id := "a"; RoomGrid.roomNumber := "101";
                   RoomGrid.status := "AVAILABLE"; RoomGrid.floor := 1 |};
                {| RoomGrid.id := "b"; RoomGrid.roomNumber := "301";
                   RoomGrid.status := "OCCUPIED"; RoomGrid.floor := 3 |};
                {| RoomGrid.id := "c"; RoomGrid.roomNumber := "102";
                   RoomGrid.status := "AVAILABLE"; RoomGrid.floor := 1 |} ])
    as (_ & _ & H & _).
  apply (H {| RoomGrid.id := "b"; RoomGrid.roomNumber := "301";
              RoomGrid.status := "OCCUPIED"; RoomGrid.floor := 3 |}).
  simpl. tauto.
Defined.
